(** * jest-console: [CustomConsole]

    A shallow embedding of [packages/jest-console/src/CustomConsole.ts] and
    the properties of its grouped, counted and timed logging.

    The class keeps three pieces of mutable state (the group depth, the
    counters and the timers) and writes to two streams it was given at
    construction.  Methods are embedded as computations in a small
    state-and-exception monad over the pair of the object and the stream
    activity of the process.

    Modelling conventions:
    - [_counters] and [_timers] are the objects [{}]: their own properties
      are a [gmap string _], and a label they do not own is looked up in
      [Object.prototype], whose members ([toString], [valueOf],
      [__proto__], ...) are therefore seen by the methods ([JS.get],
      [JS.put]); [Object.prototype] is taken as Node provides it;
    - a JavaScript number is [NaN] or an integer of magnitude at most 2^53
      (the class only counts from 0 and subtracts instants), with the
      rounding of [++] at 2^53; a [Date] is its [getTime()], in milliseconds;
    - the streams are handles, and everything that happens to a stream is
      appended to one chronological trace, so that a console built with the
      same stream twice is modelled as it behaves. *)

From Stdlib Require Import ZArith Lia.
From stdpp Require Import base option list gmap strings pretty.

Local Open Scope Z_scope.

(** ** JavaScript values, truthiness and errors *)

Module JS.

(** A number: an integer [z] with [|z| <= 2^53], or [NaN]. *)
Inductive number :=
| Int (z : Z)
| NaN.

Inductive value :=
| VUndefined
| VNull
| VBoolean (b : bool)
| VNumber (n : number)
| VString (s : string)
| VObject (ref : nat).

Definition number_truthy (n : number) : bool :=
  match n with
  | Int z => negb (z =? 0)
  | NaN => false
  end.

Definition string_truthy (s : string) : bool :=
  match s with
  | EmptyString => false
  | String _ _ => true
  end.

(** [ToBoolean]. *)
Definition truthy (v : value) : bool :=
  match v with
  | VUndefined | VNull => false
  | VBoolean b => b
  | VNumber n => number_truthy n
  | VString s => string_truthy s
  | VObject _ => true
  end.

(** [ToString] of a number, as a template literal applies it. *)
Definition number_toString (n : number) : string :=
  match n with
  | Int z => pretty z
  | NaN => "NaN"
  end.

(** The names [Object.prototype] has in Node: eleven functions and the
    accessor [__proto__]. *)
Definition Object_prototype : list string :=
  [ "constructor"; "__defineGetter__"; "__defineSetter__"; "hasOwnProperty";
    "__lookupGetter__"; "__lookupSetter__"; "isPrototypeOf";
    "propertyIsEnumerable"; "toString"; "valueOf"; "__proto__";
    "toLocaleString" ].

Definition inherited (key : string) : bool :=
  bool_decide (key ∈ Object_prototype).

(** What [o[key]] gives for an object [o = {}] whose own properties hold
    values of type [A]: the own value, else the member of
    [Object.prototype] of that name (a function, or for [__proto__] the
    prototype itself), else [undefined]. *)
Inductive slot (A : Type) :=
| Undefined
| Holds (a : A)
| Builtin.
Arguments Undefined {A}.
Arguments Holds {A} a.
Arguments Builtin {A}.

Definition get {A} (o : gmap string A) (key : string) : slot A :=
  match o !! key with
  | Some a => Holds a
  | None => if inherited key then Builtin else Undefined
  end.

(** [o[key] = n] for a number [n]: an own property is assigned or created,
    except that without an own property of that name the setter of
    [__proto__] is called, which ignores a number. *)
Definition put (key : string) (n : number) (o : gmap string number) : gmap string number :=
  match o !! key with
  | Some _ => <[key := n]> o
  | None => if decide (key = "__proto__") then o else <[key := n]> o
  end.

(** The largest integer up to which [++] is exact. *)
Definition MAX_EXACT : Z := 2 ^ 53.

(** The value of [++o[key]], given what [o[key]] holds: one more than a
    number, where [2^53 + 1] rounds back to [2^53]; [NaN] for [NaN],
    [undefined], a function or an object. *)
Definition pre_increment (x : slot number) : number :=
  match x with
  | Holds (Int z) => if z <? MAX_EXACT then Int (z + 1) else Int z
  | Holds NaN | Undefined | Builtin => NaN
  end.

(** Truthiness of what [o[key]] holds, for numbers and for dates. *)
Definition number_slot_truthy (x : slot number) : bool :=
  match x with
  | Holds n => number_truthy n
  | Builtin => true
  | Undefined => false
  end.

(** An [Error] object, as far as [toString] looks at it. *)
Record Error := { name : string; message : string }.

(** What a [throw] carries: Node's [AssertionError] (whose [toString]
    shows its code) or a plain [Error]. *)
Inductive exn :=
| AssertionError (message : string)
| Thrown (e : Error).

(** [Error.prototype.toString], and [AssertionError]'s own. *)
Definition toString (e : exn) : string :=
  match e with
  | AssertionError m => "AssertionError [ERR_ASSERTION]: " +:+ m
  | Thrown e =>
      if negb (string_truthy (name e)) then message e
      else if negb (string_truthy (message e)) then name e
      else name e +:+ ": " +:+ message e
  end.

Definition RangeError (m : string) : exn :=
  Thrown {| name := "RangeError"; message := m |}.

Definition TypeError (m : string) : exn :=
  Thrown {| name := "TypeError"; message := m |}.

Fixpoint repeat_nat (s : string) (n : nat) : string :=
  match n with
  | O => ""
  | S k => s +:+ repeat_nat s k
  end.

(** [String.prototype.repeat]: a negative count is a [RangeError]. *)
Definition String_repeat (s : string) (count : Z) : exn + string :=
  if count <? 0 then inl (RangeError ("Invalid count value: " +:+ pretty count))
  else inr (repeat_nat s (Z.to_nat count)).

(** [Array.prototype.join]. *)
Fixpoint join (sep : string) (l : list string) : string :=
  match l with
  | [] => ""
  | [s] => s
  | s :: rest => s +:+ sep +:+ join sep rest
  end.

Definition LF : string := String (Ascii.ascii_of_nat 10) EmptyString.

End JS.

(** ** Streams *)

(** A [NodeJS.WriteStream] is a handle; what is done to it is an event. *)
Definition WriteStream := nat.

(** What can happen to a stream: its unterminated line is cleared, or a chunk
    is written to it. *)
Inductive stream_op :=
| ClearLine
| Write (chunk : string).

Definition event := (WriteStream * stream_op)%type.

(** The stream activity so far, oldest first. *)
Definition trace := list event.

(** The chunks written to stream [h], oldest first. *)
Definition written (h : WriteStream) (t : trace) : list string :=
  omap (fun ev : event =>
          match ev with
          | (h', Write chunk) => if decide (h' = h) then Some chunk else None
          | (_, ClearLine) => None
          end) t.

(** ** The log types of [./types] that the class uses *)

Module LogType.
Inductive t :=
| assert | count | debug | dir | dirxml | error
| group | groupCollapsed | info | log | time | warn.
End LogType.

Definition LogMessage := string.
Definition Formatter := LogType.t -> LogMessage -> string.
Definition LogCounters := gmap string JS.number.
Definition LogTimers := gmap string Z.

(** ** What the class imports *)

(** The functions of [util], [chalk] and [jest-util] the class calls but
    whose results it only passes on. *)
Class Platform := {
  (** [util.InspectOptions], and the literal [{}] *)
  InspectOptions : Type;
  emptyOptions : InspectOptions;
  (** [util.inspect(value, options)] *)
  inspect : JS.value -> InspectOptions -> string;
  (** how [util.format] shows an argument that is not a string *)
  formatValue : option InspectOptions -> JS.value -> string;
  (** [util.format] of a string followed by further arguments: the
      placeholders of the string are filled in *)
  formatPlaceholders : option InspectOptions -> string -> list JS.value -> string;
  (** [chalk.bold] *)
  bold : string -> string;
  (** [formatTime] of jest-util, on a number of milliseconds *)
  formatTime : Z -> string;
  (** the message [assert] makes up when it is given none *)
  generatedMessage : string
}.

(** ** Node's [util.format] *)

Section Format.
Context {platform : Platform}.

Definition showArgument (o : option InspectOptions) (v : JS.value) : string :=
  match v with
  | JS.VString s => s
  | _ => formatValue o v
  end.

(** [formatWithOptionsInternal] of Node: a single string is returned as it
    is; a string followed by arguments has its placeholders filled in;
    otherwise the arguments are shown one by one, separated by a space. *)
Definition formatWithOptions (o : option InspectOptions) (args : list JS.value) : string :=
  match args with
  | [JS.VString first] => first
  | JS.VString first :: rest => formatPlaceholders o first rest
  | _ => JS.join " " (map (showArgument o) args)
  end.

Definition format (args : list JS.value) : string :=
  formatWithOptions None args.

End Format.

(** ** The object and the monad of its methods *)

Record CustomConsole := {
  _stdout : WriteStream;
  _stderr : WriteStream;
  _formatBuffer : Formatter;
  _counters : LogCounters;
  _timers : LogTimers;
  _groupDepth : Z
}.

(** How a call ends: it returns, or it throws. *)
Inductive completion (A : Type) :=
| Return (a : A)
| Throw (e : JS.exn).
Arguments Return {A} a.
Arguments Throw {A} e.

(** The receiver and the stream activity of the process. *)
Definition state := (CustomConsole * trace)%type.

Definition M (A : Type) := state -> completion A * state.

Definition ret {A} (a : A) : M A := fun s => (Return a, s).

Definition bind {A B} (m : M A) (k : A -> M B) : M B :=
  fun s =>
    match m s with
    | (Return a, s') => k a s'
    | (Throw e, s') => (Throw e, s')
    end.

Definition throw {A} (e : JS.exn) : M A := fun s => (Throw e, s).

(** [try { body } catch (error) { handler }] *)
Definition try_catch {A} (body : M A) (handler : JS.exn -> M A) : M A :=
  fun s =>
    match body s with
    | (Return a, s') => (Return a, s')
    | (Throw e, s') => handler e s'
    end.

Definition this : M CustomConsole := fun s => (Return (fst s), s).

Definition update (f : CustomConsole -> CustomConsole) : M unit :=
  fun s => (Return tt, (f (fst s), snd s)).

Definition emit (h : WriteStream) (op : stream_op) : M unit :=
  fun s => (Return tt, (fst s, snd s ++ [(h, op)])).

Definition lift {A} (r : JS.exn + A) : M A :=
  match r with
  | inl e => throw e
  | inr a => ret a
  end.

Declare Scope js_scope.
Delimit Scope js_scope with js.
Notation "x <- m ;; k" := (bind m (fun x => k))
  (at level 100, m at next level, right associativity) : js_scope.
Notation "m ;; k" := (bind m (fun _ => k))
  (at level 100, right associativity) : js_scope.
Notation "'when' b 'then' m" := (if b then m else ret tt)
  (at level 100, b at next level) : js_scope.
Local Open Scope js_scope.

(** Assignments to the fields of [this]. *)
Definition set_counters (m : LogCounters) (c : CustomConsole) : CustomConsole :=
  {| _stdout := _stdout c; _stderr := _stderr c; _formatBuffer := _formatBuffer c;
     _counters := m; _timers := _timers c; _groupDepth := _groupDepth c |}.
Definition set_timers (m : LogTimers) (c : CustomConsole) : CustomConsole :=
  {| _stdout := _stdout c; _stderr := _stderr c; _formatBuffer := _formatBuffer c;
     _counters := _counters c; _timers := m; _groupDepth := _groupDepth c |}.
Definition set_groupDepth (d : Z) (c : CustomConsole) : CustomConsole :=
  {| _stdout := _stdout c; _stderr := _stderr c; _formatBuffer := _formatBuffer c;
     _counters := _counters c; _timers := _timers c; _groupDepth := d |}.

(** ** jest-util's [clearLine], and Node's [Console] and [assert] *)

(** Modelled from the spec: jest-util's [clearLine] is not among the sources;
    the spec has the sink support "clearing/overwriting the current
    unterminated line", so a call of [clearLine] on a stream is recorded as
    the event [ClearLine] of that stream. *)
Definition clearLine (stream : WriteStream) : M unit :=
  emit stream ClearLine.

Module Node.

(** [Console.prototype.log] with one string: the string and a line feed go
    to the stream the console was built with as its standard output. *)
Definition Console_log (text : string) : M unit :=
  c <- this ;; emit (_stdout c) (Write (text +:+ JS.LF)).

(** [Console.prototype.error], likewise, to the standard error. *)
Definition Console_error (text : string) : M unit :=
  c <- this ;; emit (_stderr c) (Write (text +:+ JS.LF)).

(** The [message] argument of [assert]: a string or an [Error]. *)
Inductive assert_message :=
| MString (s : string)
| MError (e : JS.Error).

(** [assert(value, message)], that is [assert.ok]: a falsy [value] throws
    the [Error] given as message, or an [AssertionError] with the message
    given or made up. *)
Definition assert {platform : Platform} (value : JS.value) (message : option assert_message) : M unit :=
  if JS.truthy value then ret tt
  else match message with
       | Some (MError e) => throw (JS.Thrown e)
       | Some (MString s) => throw (JS.AssertionError s)
       | None => throw (JS.AssertionError generatedMessage)
       end.

End Node.

(** ** The class *)

(** [new CustomConsole(stdout, stderr, formatBuffer)]; the formatter is
    optional and is then [(_type, message) => message]. *)
Definition new (stdout stderr : WriteStream) (formatBuffer : option Formatter) : CustomConsole :=
  {| _stdout := stdout;
     _stderr := stderr;
     _formatBuffer := default (fun _type message => message) formatBuffer;
     _counters := ∅;
     _timers := ∅;
     _groupDepth := 0 |}.

(** An optional string parameter, as the value the body sees. *)
Definition optional (title : option string) : JS.value :=
  match title with
  | Some s => JS.VString s
  | None => JS.VUndefined
  end.

(** What calling [startTime.getTime()] throws when [startTime] is a member
    of [Object.prototype] and not a [Date]. *)
Definition getTime_is_not_a_function : JS.exn :=
  JS.TypeError "startTime.getTime is not a function".

Module Method.
Section Methods.
Context {platform : Platform}.

Definition _log (type : LogType.t) (message : string) : M unit :=
  c <- this ;;
  clearLine (_stdout c) ;;
  indent <- lift (JS.String_repeat "  " (_groupDepth c)) ;;
  Node.Console_log (_formatBuffer c type (indent +:+ message)).

Definition _logError (type : LogType.t) (message : string) : M unit :=
  c <- this ;;
  clearLine (_stderr c) ;;
  indent <- lift (JS.String_repeat "  " (_groupDepth c)) ;;
  Node.Console_error (_formatBuffer c type (indent +:+ message)).

Definition assert (value : JS.value) (message : option Node.assert_message) : M unit :=
  try_catch (Node.assert value message)
            (fun error => _logError LogType.assert (JS.toString error)).

Definition count (label : option string) : M unit :=
  let label := default "default" label in
  c <- this ;;
  (when negb (JS.number_slot_truthy (JS.get (_counters c) label)) then
     update (fun c => set_counters (JS.put label (JS.Int 0) (_counters c)) c)) ;;
  c <- this ;;
  let n := JS.pre_increment (JS.get (_counters c) label) in
  update (fun c => set_counters (JS.put label n (_counters c)) c) ;;
  _log LogType.count (format [JS.VString (label +:+ ": " +:+ JS.number_toString n)]).

Definition countReset (label : option string) : M unit :=
  let label := default "default" label in
  update (fun c => set_counters (JS.put label (JS.Int 0) (_counters c)) c).

Definition debug (firstArg : JS.value) (args : list JS.value) : M unit :=
  _log LogType.debug (format (firstArg :: args)).

Definition dir (firstArg : JS.value) (options : option InspectOptions) : M unit :=
  let options := default emptyOptions options in
  let representation := inspect firstArg options in
  _log LogType.dir (formatWithOptions (Some options) [JS.VString representation]).

Definition dirxml (firstArg : JS.value) (args : list JS.value) : M unit :=
  _log LogType.dirxml (format (firstArg :: args)).

Definition error (firstArg : JS.value) (args : list JS.value) : M unit :=
  _logError LogType.error (format (firstArg :: args)).

Definition group (title : option string) (args : list JS.value) : M unit :=
  update (fun c => set_groupDepth (_groupDepth c + 1) c) ;;
  when JS.truthy (optional title) || (0 <? Z.of_nat (length args)) then
    _log LogType.group (bold (format (optional title :: args))).

Definition groupCollapsed (title : option string) (args : list JS.value) : M unit :=
  update (fun c => set_groupDepth (_groupDepth c + 1) c) ;;
  when JS.truthy (optional title) || (0 <? Z.of_nat (length args)) then
    _log LogType.groupCollapsed (bold (format (optional title :: args))).

Definition groupEnd : M unit :=
  c <- this ;;
  when 0 <? _groupDepth c then
    update (fun c => set_groupDepth (_groupDepth c - 1) c).

Definition info (firstArg : JS.value) (args : list JS.value) : M unit :=
  _log LogType.info (format (firstArg :: args)).

Definition log (firstArg : JS.value) (args : list JS.value) : M unit :=
  _log LogType.log (format (firstArg :: args)).

(** [now] is what [new Date()] gives when the method runs.  A [Date] and a
    member of [Object.prototype] are truthy; the assignment is reached only
    for a label that is neither owned nor inherited, and creates it. *)
Definition time (now : Z) (label : option string) : M unit :=
  let label := default "default" label in
  c <- this ;;
  match JS.get (_timers c) label with
  | JS.Holds _ | JS.Builtin => ret tt
  | JS.Undefined => update (fun c => set_timers (<[label := now]> (_timers c)) c)
  end.

Definition timeEnd (now : Z) (label : option string) : M unit :=
  let label := default "default" label in
  c <- this ;;
  match JS.get (_timers c) label with
  | JS.Holds startTime =>
      let endTime := now in
      let time := endTime - startTime in
      _log LogType.time (format [JS.VString (label +:+ ": " +:+ formatTime time)]) ;;
      update (fun c => set_timers (delete label (_timers c)) c)
  | JS.Builtin => throw getTime_is_not_a_function
  | JS.Undefined => ret tt
  end.

Definition timeLog (now : Z) (label : option string) (data : list JS.value) : M unit :=
  let label := default "default" label in
  c <- this ;;
  match JS.get (_timers c) label with
  | JS.Holds startTime =>
      let endTime := now in
      let time := endTime - startTime in
      _log LogType.time
           (format (JS.VString (label +:+ ": " +:+ formatTime time) :: data))
  | JS.Builtin => throw getTime_is_not_a_function
  | JS.Undefined => ret tt
  end.

Definition warn (firstArg : JS.value) (args : list JS.value) : M unit :=
  _logError LogType.warn (format (firstArg :: args)).

Definition getBuffer : M JS.value :=
  ret JS.VUndefined.

End Methods.
End Method.

(** ** Calls and their sequences *)

Module Call.
Section Calls.
Context {platform : Platform}.

(** A call of a method by the owner of the console, with its arguments
    and, where the method reads the clock, the instant it does. *)
Inductive t :=
| assert (value : JS.value) (message : option Node.assert_message)
| count (label : option string)
| countReset (label : option string)
| debug (firstArg : JS.value) (args : list JS.value)
| dir (firstArg : JS.value) (options : option InspectOptions)
| dirxml (firstArg : JS.value) (args : list JS.value)
| error (firstArg : JS.value) (args : list JS.value)
| group (title : option string) (args : list JS.value)
| groupCollapsed (title : option string) (args : list JS.value)
| groupEnd
| info (firstArg : JS.value) (args : list JS.value)
| log (firstArg : JS.value) (args : list JS.value)
| time (now : Z) (label : option string)
| timeEnd (now : Z) (label : option string)
| timeLog (now : Z) (label : option string) (data : list JS.value)
| warn (firstArg : JS.value) (args : list JS.value)
| getBuffer.

Definition invoke (call : t) : M unit :=
  match call with
  | assert value message => Method.assert value message
  | count label => Method.count label
  | countReset label => Method.countReset label
  | debug firstArg args => Method.debug firstArg args
  | dir firstArg options => Method.dir firstArg options
  | dirxml firstArg args => Method.dirxml firstArg args
  | error firstArg args => Method.error firstArg args
  | group title args => Method.group title args
  | groupCollapsed title args => Method.groupCollapsed title args
  | groupEnd => Method.groupEnd
  | info firstArg args => Method.info firstArg args
  | log firstArg args => Method.log firstArg args
  | time now label => Method.time now label
  | timeEnd now label => Method.timeEnd now label
  | timeLog now label data => Method.timeLog now label data
  | warn firstArg args => Method.warn firstArg args
  | getBuffer => _ <- Method.getBuffer ;; ret tt
  end.

(** The calls one after the other; a call that throws ends the run. *)
Fixpoint run (calls : list t) : M unit :=
  match calls with
  | [] => ret tt
  | call :: rest => invoke call ;; run rest
  end.

End Calls.
End Call.

(** ** A platform without styling *)

(** The imports as they behave on a stream that is not a terminal, where
    [chalk.bold] leaves its argument alone; [formatTime] is jest-util's with
    its default unit, values are shown by a word for their type. *)
Definition plain_show (v : JS.value) : string :=
  match v with
  | JS.VUndefined => "undefined"
  | JS.VNull => "null"
  | JS.VBoolean true => "true"
  | JS.VBoolean false => "false"
  | JS.VNumber n => JS.number_toString n
  | JS.VString s => "'" +:+ s +:+ "'"
  | JS.VObject _ => "[Object]"
  end.

Definition plain_platform : Platform :=
  {| InspectOptions := unit;
     emptyOptions := tt;
     inspect := fun v _ => plain_show v;
     formatValue := fun _ v => plain_show v;
     formatPlaceholders := fun _ first rest =>
       JS.join " " (first :: map (fun v => match v with
                                           | JS.VString s => s
                                           | _ => plain_show v
                                           end) rest);
     bold := fun s => s;
     formatTime := fun ms => pretty ms +:+ " ms";
     generatedMessage := "The expression evaluated to a falsy value" |}.

(** ** Vocabulary of the properties *)

(** The indentation of a console: two spaces for each level of depth. *)
Definition indent (c : CustomConsole) : string :=
  JS.repeat_nat "  " (Z.to_nat (_groupDepth c)).

(** What logging [message] with type [type] adds to the trace when the
    console is [c] and the stream is [sink]: the partial line of the stream is
    cleared, then the formatted, indented message is written as a line. *)
Definition line (sink : WriteStream) (c : CustomConsole)
    (type : LogType.t) (message : string) : trace :=
  [(sink, ClearLine);
   (sink, Write (_formatBuffer c type (indent c +:+ message) +:+ JS.LF))].

(** [needle] occurs in [hay]. *)
Definition includes (hay needle : string) : Prop :=
  exists before after, hay = before +:+ needle +:+ after.

(** A label parameter with its default. *)
Definition labelled (label : option string) : string :=
  default "default" label.

(** What the counters of a console can hold: a whole number from 0 to 2^53,
    or [NaN] under a name of [Object.prototype]. *)
Definition counter_ok (label : string) (x : JS.number) : Prop :=
  (x = JS.NaN /\ JS.inherited label = true) \/
  exists n, x = JS.Int n /\ 0 <= n <= JS.MAX_EXACT.

Definition counters_ok (m : LogCounters) : Prop :=
  forall label x, m !! label = Some x -> counter_ok label x.

(** What the timers of a console can hold: no timer under a name of
    [Object.prototype]. *)
Definition timers_ok (m : LogTimers) : Prop :=
  forall label start, m !! label = Some start -> JS.inherited label = false.

(** The console and the trace a run of calls ends with. *)
Definition final {A} (r : completion A * state) : state := snd r.
Definition outcome {A} (r : completion A * state) : completion A := fst r.

(** The number [count] stores and shows when the counter of the label held
    [x]: a falsy [x] is replaced by 0 first, then incremented. *)
Definition counted (x : JS.slot JS.number) : JS.number :=
  JS.pre_increment (if JS.number_slot_truthy x then x else JS.Holds (JS.Int 0)).

Section Vocabulary.
Context {platform : Platform}.

(** The exception a failing [assert] of Node throws. *)
Definition failure (message : option Node.assert_message) : JS.exn :=
  match message with
  | Some (Node.MError e) => JS.Thrown e
  | Some (Node.MString s) => JS.AssertionError s
  | None => JS.AssertionError generatedMessage
  end.

(** Whether [group] has something to show. *)
Definition titled (title : option string) (args : list JS.value) : bool :=
  JS.truthy (optional title) || (0 <? Z.of_nat (length args)).


(** A call opens a group, closes one, or does neither. *)
Definition opens (call : Call.t) : Z :=
  match call with
  | Call.group _ _ | Call.groupCollapsed _ _ => 1
  | _ => 0
  end.

Definition closes (call : Call.t) : Z :=
  match call with
  | Call.groupEnd => 1
  | _ => 0
  end.

(** The calls of the group methods. *)
Definition grouping (call : Call.t) : bool :=
  match call with
  | Call.group _ _ | Call.groupCollapsed _ _ | Call.groupEnd => true
  | _ => false
  end.

(** A call that cannot meet a member of [Object.prototype] where it expects
    a [Date]: any call but a [timeEnd] or [timeLog] of an inherited name. *)
Definition safe (call : Call.t) : Prop :=
  match call with
  | Call.timeEnd _ label | Call.timeLog _ label _ =>
      JS.inherited (labelled label) = false
  | _ => True
  end.

(** The depth after a call made at depth [d]. *)
Definition step_depth (call : Call.t) (d : Z) : Z :=
  d + opens call - (if 0 <? d then closes call else 0).

(** The number of [group] calls minus the number of [groupEnd] calls. *)
Fixpoint net (calls : list Call.t) : Z :=
  match calls with
  | [] => 0
  | call :: rest => opens call - closes call + net rest
  end.

(** The least value of [net] over the prefixes of the calls, the empty
    prefix included. *)
Fixpoint low (calls : list Call.t) : Z :=
  match calls with
  | [] => 0
  | call :: rest => Z.min 0 (opens call - closes call + low rest)
  end.

(** The depth a run of calls ends with. *)
Definition depth_after (start : state) (calls : list Call.t) : Z :=
  _groupDepth (fst (final (Call.run calls start))).

(** The scenario of the specification. *)
Definition scenario : list Call.t :=
  [ Call.group (Some "outer") [];
    Call.log (JS.VString "hello") [];
    Call.group (Some "inner") [];
    Call.log (JS.VString "world") [];
    Call.groupEnd;
    Call.groupEnd;
    Call.log (JS.VString "done") [] ].

(** The stream a method writes to, when it writes: [true] is the error
    stream of [_logError], [false] the output stream of [_log]. *)
Definition to_stderr (call : Call.t) : bool :=
  match call with
  | Call.assert _ _ | Call.error _ _ | Call.warn _ _ => true
  | _ => false
  end.

Definition sink_of (call : Call.t) (c : CustomConsole) : WriteStream :=
  if to_stderr call then _stderr c else _stdout c.

(** The log type a method hands to the formatter when it writes; the
    methods without one never write. *)
Definition type_of (call : Call.t) : option LogType.t :=
  match call with
  | Call.assert _ _ => Some LogType.assert
  | Call.count _ => Some LogType.count
  | Call.debug _ _ => Some LogType.debug
  | Call.dir _ _ => Some LogType.dir
  | Call.dirxml _ _ => Some LogType.dirxml
  | Call.error _ _ => Some LogType.error
  | Call.group _ _ => Some LogType.group
  | Call.groupCollapsed _ _ => Some LogType.groupCollapsed
  | Call.info _ _ => Some LogType.info
  | Call.log _ _ => Some LogType.log
  | Call.timeEnd _ _ | Call.timeLog _ _ _ => Some LogType.time
  | Call.warn _ _ => Some LogType.warn
  | Call.countReset _ | Call.groupEnd | Call.time _ _ | Call.getBuffer => None
  end.

(** The label whose counter a call may assign, and the one whose timer. *)
Definition counter_of (call : Call.t) : option string :=
  match call with
  | Call.count label | Call.countReset label => Some (labelled label)
  | _ => None
  end.

Definition timer_of (call : Call.t) : option string :=
  match call with
  | Call.time _ label | Call.timeEnd _ label => Some (labelled label)
  | _ => None
  end.

(** The lines of [k] calls of [count] for the label [l], the first of which
    shows [j + 1]. *)
Fixpoint count_lines (c : CustomConsole) (l : string) (j : Z) (k : nat) : trace :=
  match k with
  | O => []
  | S k' =>
      line (_stdout c) c LogType.count (l +:+ ": " +:+ JS.number_toString (JS.Int (j + 1)))
      ++ count_lines c l (j + 1) k'
  end.

(** What a call made at a depth that is not negative does to the console. *)
Record step_ok (call : Call.t) (c c' : CustomConsole) : Prop := {
  step_stdout : _stdout c' = _stdout c;
  step_stderr : _stderr c' = _stderr c;
  step_formatBuffer : _formatBuffer c' = _formatBuffer c;
  step_groupDepth : _groupDepth c' = step_depth call (_groupDepth c);
  step_counters_ok : counters_ok (_counters c) -> counters_ok (_counters c');
  step_timers_ok : timers_ok (_timers c) -> timers_ok (_timers c');
  step_counters :
    forall l, counter_of call <> Some l -> _counters c' !! l = _counters c !! l;
  step_timers :
    forall l, timer_of call <> Some l -> _timers c' !! l = _timers c !! l
}.

End Vocabulary.

(** Stream activity made of lines only: each a clearing of one of the two
    streams, followed at once by a terminated chunk on the same stream. *)
Inductive lines_on (out err : WriteStream) : trace -> Prop :=
| lines_on_nil : lines_on out err []
| lines_on_cons sink text rest :
    sink = out \/ sink = err ->
    lines_on out err rest ->
    lines_on out err ((sink, ClearLine) :: (sink, Write (text +:+ JS.LF)) :: rest).

(** ** A console in use *)

(** The console after [group()], three [count("n")] and a [time("t")] at
    instant 100, on a platform without styling. *)
Definition busy : CustomConsole :=
  {| _stdout := 1%nat;
     _stderr := 2%nat;
     _formatBuffer := fun _type message => message;
     _counters := {[ "n" := JS.Int 3 ]};
     _timers := {[ "t" := 100 ]};
     _groupDepth := 1 |}.

(** * Properties *)

(** ** The monad and the primitives *)

Lemma String_repeat_nonneg s count :
  0 <= count -> JS.String_repeat s count = inr (JS.repeat_nat s (Z.to_nat count)).
Proof.
  intros Hc. unfold JS.String_repeat.
  destruct (count <? 0) eqn:E; [apply Z.ltb_lt in E; lia | reflexivity].
Qed.

Lemma String_repeat_negative s count :
  count < 0 -> exists e, JS.String_repeat s count = inl e.
Proof.
  intros Hc. unfold JS.String_repeat.
  destruct (count <? 0) eqn:E; [eauto | apply Z.ltb_ge in E; lia].
Qed.

Lemma written_app h t1 t2 : written h (t1 ++ t2) = written h t1 ++ written h t2.
Proof. unfold written. apply omap_app. Qed.

Lemma written_line h sink c type message :
  written h (line sink c type message) =
  if decide (sink = h)
  then [_formatBuffer c type (indent c +:+ message) +:+ JS.LF] else [].
Proof. unfold written, line. simpl. destruct (decide (sink = h)); reflexivity. Qed.

Lemma append_assoc (a b c : string) : (a +:+ b) +:+ c = a +:+ b +:+ c.
Proof.
  induction a as [|ch a IH]; [reflexivity |].
  change (String ch ((a +:+ b) +:+ c) = String ch (a +:+ b +:+ c)). now rewrite IH.
Qed.

Lemma set_groupDepth_id c : set_groupDepth (_groupDepth c) c = c.
Proof. now destruct c. Qed.

(** ** The two writers *)

Section Writers.
Context {platform : Platform}.

Lemma _log_returns c t type message :
  0 <= _groupDepth c ->
  Method._log type message (c, t) =
  (Return tt, (c, t ++ line (_stdout c) c type message)).
Proof.
  intros Hd. unfold Method._log, clearLine, Node.Console_log.
  unfold bind, this, emit, lift; simpl.
  rewrite (String_repeat_nonneg _ _ Hd); simpl.
  unfold ret, line, indent. now rewrite <- app_assoc.
Qed.

Lemma _logError_returns c t type message :
  0 <= _groupDepth c ->
  Method._logError type message (c, t) =
  (Return tt, (c, t ++ line (_stderr c) c type message)).
Proof.
  intros Hd. unfold Method._logError, clearLine, Node.Console_error.
  unfold bind, this, emit, lift; simpl.
  rewrite (String_repeat_nonneg _ _ Hd); simpl.
  unfold ret, line, indent. now rewrite <- app_assoc.
Qed.

(** Below depth zero the writers would throw, after the clearing. *)
Lemma _log_throws_below_zero c t type message :
  _groupDepth c < 0 ->
  exists e, Method._log type message (c, t) = (Throw e, (c, t ++ [(_stdout c, ClearLine)])).
Proof.
  intros Hd. unfold Method._log, clearLine.
  unfold bind, this, emit, lift; simpl.
  destruct (String_repeat_negative "  " _ Hd) as (e & ->).
  now exists e.
Qed.

End Writers.

(** ** The methods, one by one *)

Section Methods.
Context {platform : Platform}.

Ltac unfold_monad :=
  unfold bind, ret, this, update, throw, try_catch; simpl.

Lemma assert_truthy c t value message :
  JS.truthy value = true ->
  Method.assert value message (c, t) = (Return tt, (c, t)).
Proof.
  intros Hv. unfold Method.assert, Node.assert, try_catch.
  now rewrite Hv.
Qed.

Lemma assert_falsy c t value message :
  JS.truthy value = false ->
  0 <= _groupDepth c ->
  Method.assert value message (c, t) =
  (Return tt, (c, t ++ line (_stderr c) c LogType.assert (JS.toString (failure message)))).
Proof.
  intros Hv Hd. unfold Method.assert, Node.assert, try_catch.
  rewrite Hv.
  destruct message as [[s|e]|]; unfold throw; simpl;
    now rewrite _logError_returns.
Qed.

Lemma get_own {A} (o : gmap string A) key a :
  o !! key = Some a -> JS.get o key = JS.Holds a.
Proof. intros E. unfold JS.get. now rewrite E. Qed.

Lemma get_Holds {A} (o : gmap string A) key a :
  JS.get o key = JS.Holds a -> o !! key = Some a.
Proof.
  unfold JS.get. destruct (o !! key); [congruence |].
  destruct (JS.inherited key); discriminate.
Qed.

Lemma get_Undefined {A} (o : gmap string A) key :
  JS.get o key = JS.Undefined <-> o !! key = None /\ JS.inherited key = false.
Proof.
  unfold JS.get. destruct (o !! key); [split; [discriminate | intros [? _]; discriminate] |].
  destruct (JS.inherited key); split; try discriminate; auto.
  intros [_ ?]; discriminate.
Qed.

Lemma get_Builtin {A} (o : gmap string A) key :
  JS.get o key = JS.Builtin <-> o !! key = None /\ JS.inherited key = true.
Proof.
  unfold JS.get. destruct (o !! key); [split; [discriminate | intros [? _]; discriminate] |].
  destruct (JS.inherited key); split; try discriminate; auto.
  intros [_ ?]; discriminate.
Qed.

Lemma inherited___proto__ : JS.inherited "__proto__" = true.
Proof. reflexivity. Qed.

(** Where [put] stores: everywhere but at [__proto__] when it is not owned. *)
Lemma put_stores key n (o : gmap string JS.number) :
  JS.get o key <> JS.Builtin \/ key <> "__proto__" ->
  JS.put key n o = <[key := n]> o.
Proof.
  intros H. unfold JS.put. destruct (o !! key) eqn:E; [reflexivity |].
  destruct (decide (key = "__proto__")) as [->|_]; [| reflexivity].
  destruct H as [H|H]; [| congruence].
  exfalso. apply H. apply get_Builtin. now rewrite inherited___proto__.
Qed.

Lemma put_other key key' n (o : gmap string JS.number) :
  key <> key' -> JS.put key n o !! key' = o !! key'.
Proof.
  intros Hne. unfold JS.put.
  destruct (o !! key); [now apply lookup_insert_ne |].
  destruct (decide (key = "__proto__")); [reflexivity | now apply lookup_insert_ne].
Qed.

Lemma put_same key n (o : gmap string JS.number) x :
  JS.put key n o !! key = Some x -> x = n.
Proof.
  unfold JS.put. destruct (o !! key) eqn:E.
  - rewrite lookup_insert_eq. congruence.
  - destruct (decide (key = "__proto__")); [congruence |].
    rewrite lookup_insert_eq. congruence.
Qed.

Lemma count_returns c t label :
  0 <= _groupDepth c ->
  let l := labelled label in
  let n := counted (JS.get (_counters c) l) in
  Method.count label (c, t) =
  (Return tt,
   (set_counters (JS.put l n (_counters c)) c,
    t ++ line (_stdout c) c LogType.count (l +:+ ": " +:+ JS.number_toString n))).
Proof.
  intros Hd l n. unfold Method.count. fold (labelled label). fold l.
  unfold n, counted.
  destruct (JS.number_slot_truthy (JS.get (_counters c) l)) eqn:E;
    unfold_monad; rewrite E; simpl.
  - rewrite _log_returns by exact Hd. reflexivity.
  - assert (Hput : forall m, JS.put l m (_counters c) = <[l := m]> (_counters c)).
    { intros m. apply put_stores. left. intros HB. rewrite HB in E. discriminate. }
    rewrite Hput. unfold LogCounters in *.
    rewrite (get_own _ _ _ (lookup_insert_eq _ _ _)).
    rewrite _log_returns by exact Hd. simpl.
    unfold set_counters; simpl. f_equal. f_equal. f_equal.
    rewrite Hput. unfold JS.put. rewrite lookup_insert_eq.
    now rewrite insert_insert_eq.
Qed.

Lemma countReset_returns c t label :
  Method.countReset label (c, t) =
  (Return tt, (set_counters (JS.put (labelled label) (JS.Int 0) (_counters c)) c, t)).
Proof. reflexivity. Qed.

Lemma group_returns c t title args :
  0 <= _groupDepth c ->
  let c' := set_groupDepth (_groupDepth c + 1) c in
  Method.group title args (c, t) =
  (Return tt,
   (c', t ++ if titled title args
             then line (_stdout c) c' LogType.group (bold (format (optional title :: args)))
             else [])).
Proof.
  intros Hd c'. unfold Method.group. fold (titled title args).
  unfold_monad. destruct (titled title args).
  - rewrite _log_returns by (simpl; lia). reflexivity.
  - now rewrite app_nil_r.
Qed.

Lemma groupCollapsed_returns c t title args :
  0 <= _groupDepth c ->
  let c' := set_groupDepth (_groupDepth c + 1) c in
  Method.groupCollapsed title args (c, t) =
  (Return tt,
   (c', t ++ if titled title args
             then line (_stdout c) c' LogType.groupCollapsed
                       (bold (format (optional title :: args)))
             else [])).
Proof.
  intros Hd c'. unfold Method.groupCollapsed. fold (titled title args).
  unfold_monad. destruct (titled title args).
  - rewrite _log_returns by (simpl; lia). reflexivity.
  - now rewrite app_nil_r.
Qed.

Lemma groupEnd_returns c t :
  Method.groupEnd (c, t) =
  (Return tt,
   (set_groupDepth (if 0 <? _groupDepth c then _groupDepth c - 1 else _groupDepth c) c, t)).
Proof.
  unfold Method.groupEnd. unfold_monad.
  destruct (0 <? _groupDepth c); [reflexivity |].
  now rewrite set_groupDepth_id.
Qed.

Lemma time_running c t now label start :
  _timers c !! labelled label = Some start ->
  Method.time now label (c, t) = (Return tt, (c, t)).
Proof.
  intros Ht. unfold Method.time. fold (labelled label).
  unfold_monad. now rewrite (get_own _ _ _ Ht).
Qed.

Lemma time_inherited c t now label :
  JS.get (_timers c) (labelled label) = JS.Builtin ->
  Method.time now label (c, t) = (Return tt, (c, t)).
Proof.
  intros Ht. unfold Method.time. fold (labelled label).
  unfold_monad. now rewrite Ht.
Qed.

Lemma time_idle c t now label :
  JS.get (_timers c) (labelled label) = JS.Undefined ->
  Method.time now label (c, t) =
  (Return tt, (set_timers (<[labelled label := now]> (_timers c)) c, t)).
Proof.
  intros Ht. unfold Method.time. fold (labelled label).
  unfold_monad. now rewrite Ht.
Qed.

Lemma timeEnd_running c t now label start :
  _timers c !! labelled label = Some start ->
  0 <= _groupDepth c ->
  let l := labelled label in
  Method.timeEnd now label (c, t) =
  (Return tt,
   (set_timers (delete l (_timers c)) c,
    t ++ line (_stdout c) c LogType.time (l +:+ ": " +:+ formatTime (now - start)))).
Proof.
  intros Ht Hd l. unfold Method.timeEnd. fold (labelled label). fold l.
  unfold_monad. fold l in Ht. rewrite (get_own _ _ _ Ht).
  rewrite _log_returns by exact Hd. reflexivity.
Qed.

Lemma timeEnd_idle c t now label :
  JS.get (_timers c) (labelled label) = JS.Undefined ->
  Method.timeEnd now label (c, t) = (Return tt, (c, t)).
Proof.
  intros Ht. unfold Method.timeEnd. fold (labelled label).
  unfold_monad. now rewrite Ht.
Qed.

Lemma timeEnd_inherited c t now label :
  JS.get (_timers c) (labelled label) = JS.Builtin ->
  Method.timeEnd now label (c, t) = (Throw getTime_is_not_a_function, (c, t)).
Proof.
  intros Ht. unfold Method.timeEnd. fold (labelled label).
  unfold_monad. now rewrite Ht.
Qed.

Lemma timeLog_running c t now label data start :
  _timers c !! labelled label = Some start ->
  0 <= _groupDepth c ->
  let l := labelled label in
  Method.timeLog now label data (c, t) =
  (Return tt,
   (c, t ++ line (_stdout c) c LogType.time
              (format (JS.VString (l +:+ ": " +:+ formatTime (now - start)) :: data)))).
Proof.
  intros Ht Hd l. unfold Method.timeLog. fold (labelled label). fold l.
  unfold_monad. fold l in Ht. rewrite (get_own _ _ _ Ht).
  now rewrite _log_returns by exact Hd.
Qed.

Lemma timeLog_idle c t now label data :
  JS.get (_timers c) (labelled label) = JS.Undefined ->
  Method.timeLog now label data (c, t) = (Return tt, (c, t)).
Proof.
  intros Ht. unfold Method.timeLog. fold (labelled label).
  unfold_monad. now rewrite Ht.
Qed.

Lemma timeLog_inherited c t now label data :
  JS.get (_timers c) (labelled label) = JS.Builtin ->
  Method.timeLog now label data (c, t) = (Throw getTime_is_not_a_function, (c, t)).
Proof.
  intros Ht. unfold Method.timeLog. fold (labelled label).
  unfold_monad. now rewrite Ht.
Qed.

End Methods.

(** ** What the counters and the timers can hold *)


Lemma counters_ok_put m label n :
  counters_ok m -> counter_ok label n -> counters_ok (JS.put label n m).
Proof.
  intros Hm Hn l x Hx.
  destruct (decide (label = l)) as [->|Hne].
  - apply put_same in Hx. now subst x.
  - rewrite put_other in Hx by exact Hne. now apply (Hm l).
Qed.

Lemma MAX_EXACT_positive : 1 <= JS.MAX_EXACT.
Proof. unfold JS.MAX_EXACT. lia. Qed.

Lemma pre_increment_zero : JS.pre_increment (JS.Holds (JS.Int 0)) = JS.Int 1.
Proof. reflexivity. Qed.

(** On counters that are in order, [count] shows a whole number from 1 to
    2^53, or [NaN] for a name of [Object.prototype] that is not owned. *)
Lemma counted_ok m label :
  counters_ok m ->
  (counted (JS.get m label) = JS.NaN /\ JS.get m label = JS.Builtin) \/
  exists n, counted (JS.get m label) = JS.Int n /\ 1 <= n <= JS.MAX_EXACT.
Proof.
  intros Hm. pose proof MAX_EXACT_positive as HM. unfold counted.
  destruct (JS.get m label) as [|x|] eqn:G; cbn [JS.number_slot_truthy].
  - right. exists 1. rewrite pre_increment_zero. split; [reflexivity | lia].
  - apply get_Holds in G.
    destruct (Hm _ _ G) as [[-> _]|(k & -> & Hk)]; cbn [JS.number_truthy].
    + right. exists 1. rewrite pre_increment_zero. split; [reflexivity | lia].
    + destruct (k =? 0) eqn:Ek; cbn [negb].
      * right. exists 1. rewrite pre_increment_zero. split; [reflexivity | lia].
      * apply Z.eqb_neq in Ek. right. cbn [JS.pre_increment].
        destruct (k <? JS.MAX_EXACT) eqn:Elt.
        -- apply Z.ltb_lt in Elt. exists (k + 1). split; [reflexivity | lia].
        -- exists k. split; [reflexivity | lia].
  - now left.
Qed.

Lemma timers_ok_empty : timers_ok ∅.
Proof. intros label x Hx. unfold LogTimers in *. now rewrite lookup_empty in Hx. Qed.

Lemma timers_ok_insert m label now :
  timers_ok m -> JS.inherited label = false -> timers_ok (<[label := now]> m).
Proof.
  intros Hm Hl l x. unfold LogTimers in *.
  destruct (decide (label = l)) as [->|Hne].
  - intros _. exact Hl.
  - rewrite lookup_insert_ne by exact Hne. apply Hm.
Qed.

Lemma timers_ok_delete m label : timers_ok m -> timers_ok (delete label m).
Proof.
  intros Hm l x. unfold LogTimers in *.
  destruct (decide (label = l)) as [->|Hne].
  - now rewrite lookup_delete_eq.
  - rewrite lookup_delete_ne by exact Hne. apply Hm.
Qed.

Lemma lookup_insert_other {A} (m : gmap string A) (l l' : string) (x : A) :
  Some l <> Some l' -> <[l := x]> m !! l' = m !! l'.
Proof. intros Hne. apply lookup_insert_ne. congruence. Qed.

Lemma lookup_delete_other {A} (m : gmap string A) (l l' : string) :
  Some l <> Some l' -> delete l m !! l' = m !! l'.
Proof. intros Hne. apply lookup_delete_ne. congruence. Qed.

Lemma put_elsewhere (m : gmap string JS.number) (l l' : string) n :
  Some l <> Some l' -> JS.put l n m !! l' = m !! l'.
Proof. intros Hne. apply put_other. congruence. Qed.

(** ** Any call *)

Section Calls.
Context {platform : Platform}.

Lemma step_depth_same call d :
  opens call = 0 -> closes call = 0 -> step_depth call d = d.
Proof. intros Ho Hc. unfold step_depth. rewrite Ho, Hc. destruct (0 <? d); lia. Qed.

(** A call that leaves the console as it is. *)
Lemma step_ok_same call c :
  opens call = 0 -> closes call = 0 -> step_ok call c c.
Proof.
  intros Ho Hc. constructor; auto. now rewrite step_depth_same.
Qed.

(** What a call does at a depth that is not negative.  It returns, unless
    it is a [timeEnd] or [timeLog] that meets a member of
    [Object.prototype]; it keeps the streams and the formatter, moves the
    depth by [step_depth], keeps counters and timers in order, assigns no
    counter and no timer but those of its label, and writes nothing, or one
    line with the type of its method on the stream of its method. *)
Lemma invoke_any c t call :
  0 <= _groupDepth c ->
  exists r c' evs,
    Call.invoke call (c, t) = (r, (c', t ++ evs)) /\
    (safe call -> r = Return tt) /\
    step_ok call c c' /\
    (evs = [] \/
     exists type message,
       type_of call = Some type /\ evs = line (sink_of call c) c' type message).
Proof.
  intros Hd.
  destruct call as [value message|label|label|firstArg args|firstArg options
                   |firstArg args|firstArg args|title args|title args|
                   |firstArg args|firstArg args|now label|now label
                   |now label data|firstArg args|]; simpl Call.invoke.
  - (* assert *)
    destruct (JS.truthy value) eqn:Hv.
    + exists (Return tt), c, []. rewrite assert_truthy by exact Hv. rewrite app_nil_r.
      repeat split; auto. now apply step_ok_same.
    + rewrite assert_falsy by assumption. do 3 eexists.
      split; [reflexivity |]. split; [reflexivity |].
      split; [now apply step_ok_same | right; eauto].
  - (* count *)
    rewrite count_returns by exact Hd. do 3 eexists.
    split; [reflexivity |]. split; [reflexivity |]. split; [| right; eauto].
    constructor; simpl; auto.
    + now rewrite step_depth_same.
    + intros Hm. apply counters_ok_put; [exact Hm |].
      destruct (counted_ok _ (labelled label) Hm) as [[-> HB]|(n & -> & Hn)].
      * left. split; [reflexivity |]. now apply get_Builtin in HB as [_ HB].
      * right. exists n. split; [reflexivity | lia].
    + intros l Hl. now apply put_elsewhere.
  - (* countReset *)
    rewrite countReset_returns. eexists. eexists. exists []. rewrite app_nil_r.
    split; [reflexivity |]. split; [reflexivity |]. split; [| now left].
    constructor; simpl; auto.
    + now rewrite step_depth_same.
    + intros Hm. apply counters_ok_put; [exact Hm |].
      right. exists 0. pose proof MAX_EXACT_positive. split; [reflexivity | lia].
    + intros l Hl. now apply put_elsewhere.
  - (* debug *)
    unfold Method.debug. rewrite _log_returns by exact Hd. do 3 eexists.
    split; [reflexivity |]. split; [reflexivity |].
    split; [now apply step_ok_same | right; eauto].
  - (* dir *)
    unfold Method.dir. rewrite _log_returns by exact Hd. do 3 eexists.
    split; [reflexivity |]. split; [reflexivity |].
    split; [now apply step_ok_same | right; eauto].
  - (* dirxml *)
    unfold Method.dirxml. rewrite _log_returns by exact Hd. do 3 eexists.
    split; [reflexivity |]. split; [reflexivity |].
    split; [now apply step_ok_same | right; eauto].
  - (* error *)
    unfold Method.error. rewrite _logError_returns by exact Hd. do 3 eexists.
    split; [reflexivity |]. split; [reflexivity |].
    split; [now apply step_ok_same | right; eauto].
  - (* group *)
    rewrite group_returns by exact Hd. do 3 eexists.
    split; [reflexivity |]. split; [reflexivity |]. split.
    + constructor; simpl; auto.
      unfold step_depth; simpl. destruct (0 <? _groupDepth c); lia.
    + destruct (titled title args); [right; eauto | now left].
  - (* groupCollapsed *)
    rewrite groupCollapsed_returns by exact Hd. do 3 eexists.
    split; [reflexivity |]. split; [reflexivity |]. split.
    + constructor; simpl; auto.
      unfold step_depth; simpl. destruct (0 <? _groupDepth c); lia.
    + destruct (titled title args); [right; eauto | now left].
  - (* groupEnd *)
    rewrite groupEnd_returns. eexists. eexists. exists []. rewrite app_nil_r.
    split; [reflexivity |]. split; [reflexivity |]. split; [| now left].
    constructor; simpl; auto.
    unfold step_depth; simpl. destruct (0 <? _groupDepth c); lia.
  - (* info *)
    unfold Method.info. rewrite _log_returns by exact Hd. do 3 eexists.
    split; [reflexivity |]. split; [reflexivity |].
    split; [now apply step_ok_same | right; eauto].
  - (* log *)
    unfold Method.log. rewrite _log_returns by exact Hd. do 3 eexists.
    split; [reflexivity |]. split; [reflexivity |].
    split; [now apply step_ok_same | right; eauto].
  - (* time *)
    destruct (JS.get (_timers c) (labelled label)) as [|start|] eqn:Ht.
    + rewrite (time_idle _ _ _ _ Ht). eexists. eexists. exists []. rewrite app_nil_r.
      split; [reflexivity |]. split; [reflexivity |]. split; [| now left].
      apply get_Undefined in Ht as [_ Hl].
      constructor; simpl; auto.
      * now rewrite step_depth_same.
      * intros Hm. now apply timers_ok_insert.
      * intros l Hne. unfold LogTimers in *. now apply lookup_insert_other.
    + apply get_Holds in Ht. rewrite (time_running _ _ _ _ _ Ht).
      exists (Return tt), c, []. rewrite app_nil_r.
      repeat split; auto. now apply step_ok_same.
    + rewrite (time_inherited _ _ _ _ Ht).
      exists (Return tt), c, []. rewrite app_nil_r.
      repeat split; auto. now apply step_ok_same.
  - (* timeEnd *)
    destruct (JS.get (_timers c) (labelled label)) as [|start|] eqn:Ht.
    + rewrite (timeEnd_idle _ _ _ _ Ht). exists (Return tt), c, []. rewrite app_nil_r.
      repeat split; auto. now apply step_ok_same.
    + apply get_Holds in Ht. rewrite (timeEnd_running _ _ _ _ _ Ht Hd). do 3 eexists.
      split; [reflexivity |]. split; [reflexivity |]. split; [| right; eauto].
      constructor; simpl; auto.
      * now rewrite step_depth_same.
      * intros Hm. now apply timers_ok_delete.
      * intros l Hne. unfold LogTimers in *. now apply lookup_delete_other.
    + rewrite (timeEnd_inherited _ _ _ _ Ht).
      exists (Throw getTime_is_not_a_function), c, []. rewrite app_nil_r.
      split; [reflexivity |]. split.
      * simpl. intros Hsafe. apply get_Builtin in Ht as [_ Hl]. congruence.
      * split; [now apply step_ok_same | now left].
  - (* timeLog *)
    destruct (JS.get (_timers c) (labelled label)) as [|start|] eqn:Ht.
    + rewrite (timeLog_idle _ _ _ _ _ Ht). exists (Return tt), c, []. rewrite app_nil_r.
      repeat split; auto. now apply step_ok_same.
    + apply get_Holds in Ht. rewrite (timeLog_running _ _ _ _ _ _ Ht Hd). do 3 eexists.
      split; [reflexivity |]. split; [reflexivity |].
      split; [now apply step_ok_same | right; eauto].
    + rewrite (timeLog_inherited _ _ _ _ _ Ht).
      exists (Throw getTime_is_not_a_function), c, []. rewrite app_nil_r.
      split; [reflexivity |]. split.
      * simpl. intros Hsafe. apply get_Builtin in Ht as [_ Hl]. congruence.
      * split; [now apply step_ok_same | now left].
  - (* warn *)
    unfold Method.warn. rewrite _logError_returns by exact Hd. do 3 eexists.
    split; [reflexivity |]. split; [reflexivity |].
    split; [now apply step_ok_same | right; eauto].
  - (* getBuffer *)
    exists (Return tt), c, []. rewrite app_nil_r.
    repeat split; auto. now apply step_ok_same.
Qed.

End Calls.

(** ** Runs of calls *)

Lemma lines_on_app out err t1 t2 :
  lines_on out err t1 -> lines_on out err t2 -> lines_on out err (t1 ++ t2).
Proof.
  induction 1 as [|sink text rest Hsink _ IH]; intros H2; simpl; [exact H2 |].
  constructor; [exact Hsink | now apply IH].
Qed.

Lemma lines_on_line out err sink c type message :
  sink = out \/ sink = err -> lines_on out err (line sink c type message).
Proof. intros Hsink. unfold line. constructor; [exact Hsink | constructor]. Qed.

Lemma lines_on_elsewhere out err h added :
  lines_on out err added -> h <> out -> h <> err -> written h added = [].
Proof.
  intros Hl Ho He. induction Hl as [|sink text rest Hsink _ IH]; [reflexivity |].
  unfold written in *. simpl.
  destruct (decide (sink = h)) as [->|_]; [destruct Hsink; congruence | exact IH].
Qed.

Section Runs.
Context {platform : Platform}.

Lemma low_nonpos calls : low calls <= 0.
Proof. destruct calls; simpl; lia. Qed.

Lemma opens_closes call :
  (opens call = 0 \/ opens call = 1) /\ (closes call = 0 \/ closes call = 1) /\
  (opens call = 0 \/ closes call = 0).
Proof. destruct call; simpl; lia. Qed.

Lemma step_depth_nonneg call d : 0 <= d -> 0 <= step_depth call d.
Proof.
  intros Hd. unfold step_depth.
  pose proof (opens_closes call) as Hoc.
  destruct (0 <? d) eqn:E; [apply Z.ltb_lt in E |]; lia.
Qed.

Lemma run_cons call rest s s' :
  Call.invoke call s = (Return tt, s') ->
  Call.run (call :: rest) s = Call.run rest s'.
Proof. intros E. simpl. unfold bind. now rewrite E. Qed.

Lemma run_cons_throws call rest s e s' :
  Call.invoke call s = (Throw e, s') ->
  Call.run (call :: rest) s = (Throw e, s').
Proof. intros E. simpl. unfold bind. now rewrite E. Qed.

Lemma sink_of_cases call c : sink_of call c = _stdout c \/ sink_of call c = _stderr c.
Proof. unfold sink_of. destruct (to_stderr call); auto. Qed.

(** A run from a depth that is not negative, whether it returns or stops at
    a call that throws: the console keeps its streams and its formatter, the
    depth stays not negative, counters and timers stay in order, and what is
    written is lines on the two streams.  A run of safe calls returns, at the
    depth of the walk that [group] moves up and [groupEnd] moves down but not
    below zero. *)
Lemma run_any calls : forall c t,
  0 <= _groupDepth c ->
  exists r c' evs,
    Call.run calls (c, t) = (r, (c', t ++ evs)) /\
    (Forall safe calls ->
     r = Return tt /\
     _groupDepth c' = _groupDepth c + net calls - Z.min 0 (_groupDepth c + low calls)) /\
    _stdout c' = _stdout c /\ _stderr c' = _stderr c /\
    _formatBuffer c' = _formatBuffer c /\
    0 <= _groupDepth c' /\
    (counters_ok (_counters c) -> counters_ok (_counters c')) /\
    (timers_ok (_timers c) -> timers_ok (_timers c')) /\
    lines_on (_stdout c) (_stderr c) evs.
Proof.
  induction calls as [|call rest IH]; intros c t Hd.
  - exists (Return tt), c, []. simpl. rewrite app_nil_r.
    repeat split; auto; try lia. constructor.
  - destruct (invoke_any c t call Hd) as (r1 & c1 & evs1 & E1 & Hsafe1 & Hstep & Hevs1).
    destruct Hstep as [Ho1 He1 Hf1 Hd1 Hc1 Ht1 _ _].
    assert (Hd1' : 0 <= _groupDepth c1)
      by (rewrite Hd1; now apply step_depth_nonneg).
    assert (Hl1 : lines_on (_stdout c) (_stderr c) evs1).
    { destruct Hevs1 as [->|(type & message & _ & ->)]; [constructor |].
      apply lines_on_line. apply sink_of_cases. }
    destruct r1 as [[]|e].
    + destruct (IH c1 (t ++ evs1) Hd1')
        as (r & c2 & evs2 & E2 & Hsafe2 & Ho2 & He2 & Hf2 & Hd2 & Hc2 & Ht2 & Hl2).
      exists r, c2, (evs1 ++ evs2).
      rewrite (run_cons _ _ _ _ E1). rewrite <- app_assoc in E2.
      split; [exact E2 |]. split.
      { intros Hall. apply Forall_cons in Hall as [_ Hall].
        destruct (Hsafe2 Hall) as [-> Hn2]. split; [reflexivity |].
        rewrite Hn2, Hd1. unfold step_depth. simpl net. simpl low.
        pose proof (low_nonpos rest) as Hl.
        pose proof (opens_closes call) as Hoc.
        destruct (0 <? _groupDepth c) eqn:E;
          [apply Z.ltb_lt in E | apply Z.ltb_ge in E]; lia. }
      repeat split; try congruence; auto.
      apply lines_on_app; [exact Hl1 |]. now rewrite Ho1, He1 in Hl2.
    + exists (Throw e), c1, evs1.
      rewrite (run_cons_throws _ _ _ _ _ E1).
      split; [reflexivity |]. split.
      { intros Hall. apply Forall_cons in Hall as [Hcall _].
        specialize (Hsafe1 Hcall). discriminate. }
      repeat split; auto.
Qed.

(** A run of safe calls returns. *)
Lemma run_returns calls c t :
  0 <= _groupDepth c ->
  Forall safe calls ->
  exists c' evs,
    Call.run calls (c, t) = (Return tt, (c', t ++ evs)) /\
    _stdout c' = _stdout c /\ _stderr c' = _stderr c /\
    _formatBuffer c' = _formatBuffer c /\
    0 <= _groupDepth c' /\
    _groupDepth c' = _groupDepth c + net calls - Z.min 0 (_groupDepth c + low calls) /\
    (counters_ok (_counters c) -> counters_ok (_counters c')) /\
    lines_on (_stdout c) (_stderr c) evs.
Proof.
  intros Hd Hsafe.
  destruct (run_any calls c t Hd)
    as (r & c' & evs & E & Hr & Ho & He & Hf & Hd' & Hc & _ & Hl).
  destruct (Hr Hsafe) as [-> Hn].
  exists c', evs. repeat split; assumption.
Qed.

Lemma grouping_safe calls :
  Forall (fun call => grouping call = true) calls -> Forall safe calls.
Proof.
  intros Hg. eapply Forall_impl; [exact Hg |].
  intros call Hcall. destruct call; try discriminate; exact I.
Qed.

End Runs.

(** * The claims of the specification *)

(** ** Grouping *)

(** C1, as the code has it.  The scenario [group("outer")], [log("hello")],
    [group("inner")], [log("world")], [groupEnd()], [groupEnd()],
    [log("done")] on a console with the identity formatter returns, ends at
    depth 0, and writes to the standard output exactly the lines
    ["  outer"], ["  hello"], ["    inner"], ["    world"], ["done"] (the two
    titles in bold): every line is indented by two spaces for each level of
    the depth at which it is written, and a title is written after its own
    group has raised the depth, so a title and the lines of its group are
    indented alike. *)
Theorem scenario_output {platform : Platform} (out err : WriteStream) (t : trace) :
  let r := Call.run scenario (new out err (Some (fun _ message => message)), t) in
  outcome r = Return tt /\
  written out (snd (final r)) =
    written out t ++
    map (fun text => text +:+ JS.LF)
        [ "  " +:+ bold "outer";
          "  hello";
          "    " +:+ bold "inner";
          "    world";
          "done" ] /\
  depth_after (new out err (Some (fun _ message => message)), t) scenario = 0.
Proof.
  unfold depth_after, scenario.
  set (c0 := new out err (Some (fun _ message => message))).
  erewrite run_cons by (apply group_returns; simpl; lia).
  erewrite run_cons by (apply _log_returns; simpl; lia).
  erewrite run_cons by (apply group_returns; simpl; lia).
  erewrite run_cons by (apply _log_returns; simpl; lia).
  erewrite run_cons by (apply groupEnd_returns).
  erewrite run_cons by (apply groupEnd_returns).
  erewrite run_cons by (apply _log_returns; simpl; lia).
  simpl. repeat split.
  rewrite !written_app, !written_line. simpl.
  destruct (decide (out = out)) as [_|Hne]; [| congruence].
  rewrite <- !app_assoc. reflexivity.
Qed.

(** C1, as stated, fails.  On a platform without styling the scenario writes
    ["  outer"], ["  hello"], ["    inner"], ["    world"], ["done"], which are
    not the lines ["  outer"], ["    hello"], ["      inner"],
    ["        world"], ["done"]: [log("hello")] runs at depth 1 and is indented
    by two spaces, not four. *)
Lemma scenario_output_not_as_stated :
  let lines :=
    written 1%nat
      (snd (final (Call.run (platform := plain_platform) scenario
                     (new 1%nat 2%nat (Some (fun _ message => message)), [])))) in
  lines = map (fun text => text +:+ JS.LF)
              [ "  outer"; "  hello"; "    inner"; "    world"; "done" ] /\
  lines <> map (fun text => text +:+ JS.LF)
               [ "  outer"; "    hello"; "      inner"; "        world"; "done" ].
Proof. vm_compute. split; [reflexivity | intros E; discriminate E]. Qed.

(** C2, as the code has it.  From a new console, any sequence of [group],
    [groupCollapsed] and [groupEnd] calls returns, and the depth it ends with
    is the number of [group] and [groupCollapsed] calls minus the number of
    [groupEnd] calls, minus the least value this difference takes over the
    prefixes of the sequence (the empty one included; that least value is 0
    when no [groupEnd] is called at depth 0).  The depth is never negative,
    after the sequence or after any prefix of it, it is never less than
    [max(0, net)], and [groupEnd] at depth 0 changes neither the console nor
    the streams. *)
Theorem groupDepth_after_calls {platform : Platform}
    (out err : WriteStream) (hook : option Formatter) (t : trace)
    (calls : list Call.t)
    (Hgrouping : Forall (fun call => grouping call = true) calls) :
  let start := (new out err hook, t) in
  outcome (Call.run calls start) = Return tt /\
  depth_after start calls = net calls - low calls /\
  Z.max 0 (net calls) <= depth_after start calls /\
  (forall k, 0 <= depth_after start (take k calls)) /\
  (forall c t', Method.groupEnd (set_groupDepth 0 c, t') =
                (Return tt, (set_groupDepth 0 c, t'))).
Proof.
  intros start. unfold depth_after, start.
  assert (H0 : 0 <= _groupDepth (new out err hook)) by (simpl; lia).
  destruct (run_returns calls _ t H0 (grouping_safe _ Hgrouping))
    as (c' & evs & E & _ & _ & _ & Hd & Hn & _).
  rewrite E. simpl in Hn |- *.
  pose proof (low_nonpos calls) as Hl.
  split; [reflexivity |]. split; [simpl; lia |]. split; [simpl; lia |].
  split.
  - intros k.
    destruct (run_any (take k calls) _ t H0) as (rk & ck & evsk & Ek & _ & _ & _ & _ & Hk & _).
    rewrite Ek. exact Hk.
  - intros c t'. now rewrite groupEnd_returns.
Qed.

(** C2, as stated, fails: in [groupEnd()], [group()] there is one call of
    each, so that [max(0, net)] is 0, yet the depth after them is 1. *)
Lemma groupDepth_not_max_of_net :
  let calls := [Call.groupEnd; Call.group None []] in
  let depth := depth_after (platform := plain_platform) (new 1%nat 2%nat None, []) calls in
  depth = 1 /\
  Z.max 0 (net (platform := plain_platform) calls) = 0 /\
  depth <> Z.max 0 (net (platform := plain_platform) calls).
Proof. vm_compute. repeat split; intros E; discriminate E. Qed.


(** ** Assertions *)

(** C3.  On a console whose depth is not negative, [assert(false, "boom")]
    returns (nothing is thrown), leaves the console as it is, and adds to the
    trace one clearing and one line, both on the error stream; the line is
    the formatter applied to a text that includes "boom", and the default
    formatter returns that text itself.  [assert] of a truthy value, with any
    message or none, returns and writes nothing. *)
Theorem assert_false_logs_one_error {platform : Platform}
    (c : CustomConsole) (t : trace)
    (value : JS.value) (message : option Node.assert_message)
    (Hdepth : 0 <= _groupDepth c) (Hvalue : JS.truthy value = true) :
  let text := indent c +:+ "AssertionError [ERR_ASSERTION]: boom" in
  Method.assert (JS.VBoolean false) (Some (Node.MString "boom")) (c, t) =
    (Return tt,
     (c, t ++ [(_stderr c, ClearLine);
               (_stderr c, Write (_formatBuffer c LogType.assert text +:+ JS.LF))])) /\
  includes text "boom" /\
  (forall out err, _formatBuffer (new out err None) LogType.assert text = text) /\
  Method.assert value message (c, t) = (Return tt, (c, t)).
Proof.
  intros text. split; [| split; [| split]].
  - now rewrite assert_falsy.
  - exists (indent c +:+ "AssertionError [ERR_ASSERTION]: "), "".
    unfold text. now rewrite append_assoc.
  - reflexivity.
  - now apply assert_truthy.
Qed.

(** ** Timers *)

(** C4.  While a timer runs for a label, [time] of that label returns
    without changing the console or the streams, so a [timeEnd] that follows
    reports the time since the instant already stored.  From a console
    without a timer for the label, the label not being a name of
    [Object.prototype], [time], [time] again and [timeEnd] therefore report
    the time since the first of the two calls. *)
Theorem time_running_is_noop {platform : Platform}
    (c : CustomConsole) (t : trace) (label : option string) (start now now' : Z)
    (Hrunning : _timers c !! labelled label = Some start)
    (Hdepth : 0 <= _groupDepth c) :
  let l := labelled label in
  let idle := set_timers (delete l (_timers c)) c in
  let report := line (_stdout c) c LogType.time (l +:+ ": " +:+ formatTime (now' - start)) in
  Method.time now label (c, t) = (Return tt, (c, t)) /\
  (Method.time now label ;; Method.timeEnd now' label) (c, t) =
    (Return tt, (idle, t ++ report)) /\
  (JS.inherited l = false ->
   (Method.time start label ;; Method.time now label ;; Method.timeEnd now' label)
     (idle, t) =
     (Return tt, (idle, t ++ report))).
Proof.
  intros l idle report.
  assert (Hnoop : Method.time now label (c, t) = (Return tt, (c, t)))
    by exact (time_running _ _ _ _ _ Hrunning).
  split; [exact Hnoop |]. split.
  - unfold bind. rewrite Hnoop. now rewrite (timeEnd_running _ _ _ _ _ Hrunning Hdepth).
  - intros Hl.
    assert (Hidle : JS.get (_timers idle) (labelled label) = JS.Undefined).
    { apply get_Undefined. split; [| exact Hl].
      simpl. unfold LogTimers in *. apply lookup_delete_eq. }
    unfold bind. rewrite (time_idle _ _ _ _ Hidle).
    set (c1 := set_timers (<[labelled label := start]> (_timers idle)) idle).
    assert (H1 : _timers c1 !! labelled label = Some start)
      by (simpl; unfold LogTimers in *; apply lookup_insert_eq).
    rewrite (time_running _ _ _ _ _ H1).
    rewrite (timeEnd_running _ _ _ _ _ H1) by exact Hdepth.
    unfold c1, idle, report, line, indent, set_timers; simpl. fold l.
    unfold LogTimers in *.
    now rewrite delete_insert_eq, delete_delete_eq.
Qed.

(** C5.  While a timer runs for a label, [timeLog] of that label logs the
    time since the stored instant, with the data, and changes nothing of the
    console: the timer stays, and a [timeEnd] that follows finds it and
    reports the time since the same instant. *)
Theorem timeLog_keeps_timer {platform : Platform}
    (c : CustomConsole) (t : trace) (label : option string)
    (data : list JS.value) (start now now' : Z)
    (Hrunning : _timers c !! labelled label = Some start)
    (Hdepth : 0 <= _groupDepth c) :
  let l := labelled label in
  let logged :=
    line (_stdout c) c LogType.time
         (format (JS.VString (l +:+ ": " +:+ formatTime (now - start)) :: data)) in
  let report := line (_stdout c) c LogType.time (l +:+ ": " +:+ formatTime (now' - start)) in
  Method.timeLog now label data (c, t) = (Return tt, (c, t ++ logged)) /\
  (Method.timeLog now label data ;; Method.timeEnd now' label) (c, t) =
    (Return tt, (set_timers (delete l (_timers c)) c, t ++ logged ++ report)).
Proof.
  intros l logged report.
  assert (Hlog : Method.timeLog now label data (c, t) = (Return tt, (c, t ++ logged)))
    by exact (timeLog_running _ _ _ _ _ _ Hrunning Hdepth).
  split; [exact Hlog |].
  unfold bind. rewrite Hlog.
  rewrite (timeEnd_running _ _ _ _ _ Hrunning Hdepth).
  now rewrite <- app_assoc.
Qed.

(** C6, where the code fails it.  On a new console no timer runs for
    ["toString"], yet [timeEnd("toString")] does not return: the lookup
    [this._timers["toString"]] finds the function of [Object.prototype],
    which is truthy, and [startTime.getTime()] throws the [TypeError]
    "startTime.getTime is not a function".  Nothing is written and the
    console is unchanged. *)
Theorem timeEnd_of_inherited_name_throws {platform : Platform}
    (out err : WriteStream) (hook : option Formatter) (t : trace) (now : Z) :
  _timers (new out err hook) !! "toString" = None /\
  Method.timeEnd now (Some "toString") (new out err hook, t) =
    (Throw getTime_is_not_a_function, (new out err hook, t)) /\
  JS.toString getTime_is_not_a_function =
    "TypeError: startTime.getTime is not a function".
Proof. repeat split. Qed.

(** ** Counters *)

(** C7, where the code fails it.  On a new console with the default
    formatter, [countReset("__proto__")] and then [count("__proto__")] log
    ["__proto__: NaN"], not ["__proto__: 1"]: the assignment of 0 goes to the
    setter of [__proto__], which ignores a number; the lookup then gives
    [Object.prototype], which is truthy, and [++] of it is [NaN].  No counter
    is stored. *)
Theorem countReset_then_count_of___proto__ {platform : Platform}
    (out err : WriteStream) (t : trace) :
  (Method.countReset (Some "__proto__") ;; Method.count (Some "__proto__"))
    (new out err None, t) =
    (Return tt,
     (new out err None,
      t ++ [(out, ClearLine); (out, Write ("__proto__: NaN" +:+ JS.LF))])).
Proof.
  unfold bind. rewrite countReset_returns.
  rewrite count_returns by (simpl; lia). reflexivity.
Qed.

(** C10, where the code fails it.  On a new console with the default
    formatter, [count("toString")] logs ["toString: NaN"] and stores [NaN]:
    the lookup finds the function of [Object.prototype], which is truthy, so
    the counter is not set to 0 first, and [++] of a function is [NaN]. *)
Theorem count_of_inherited_name_is_NaN {platform : Platform}
    (out err : WriteStream) (t : trace) :
  Method.count (Some "toString") (new out err None, t) =
    (Return tt,
     (set_counters {[ "toString" := JS.NaN ]} (new out err None),
      t ++ [(out, ClearLine); (out, Write ("toString: NaN" +:+ JS.LF))])).
Proof. rewrite count_returns by (simpl; lia). reflexivity. Qed.

(** ** The formatting rule *)

(** C8.  On a console whose depth is not negative, every writing method
    clears the partial line of its stream and then writes to that stream, as
    one line, the formatter applied to the type of the method and to the
    formatted message behind two spaces for each level of depth.  This is so
    of the two writers [_log] (output stream) and [_logError] (error
    stream), and of each public method with its own type, stream and
    message; a console is built with the formatter it is given, and without
    one with the formatter that returns the message. *)
Theorem writing_methods_format {platform : Platform}
    (c : CustomConsole) (t : trace) (type : LogType.t) (message : string)
    (firstArg : JS.value) (args data : list JS.value)
    (options : option InspectOptions) (title label : option string)
    (value : JS.value) (reason : option Node.assert_message) (now : Z)
    (Hdepth : 0 <= _groupDepth c) :
  let spaces (depth : Z) := JS.repeat_nat "  " (Z.to_nat depth) in
  let wrote (sink : WriteStream) (depth : Z) (type : LogType.t) (message : string) :=
    [(sink, ClearLine);
     (sink, Write (_formatBuffer c type (spaces depth +:+ message) +:+ JS.LF))] in
  let d := _groupDepth c in
  let l := labelled label in
  let n := counted (JS.get (_counters c) l) in
  let inside := set_groupDepth (d + 1) c in
  (Method._log type message (c, t) =
     (Return tt, (c, t ++ wrote (_stdout c) d type message)) /\
   Method._logError type message (c, t) =
     (Return tt, (c, t ++ wrote (_stderr c) d type message))) /\
  (forall out err hook,
      _formatBuffer (new out err (Some hook)) = hook /\
      _formatBuffer (new out err None) type message = message) /\
  (Method.log firstArg args (c, t) =
     (Return tt, (c, t ++ wrote (_stdout c) d LogType.log (format (firstArg :: args)))) /\
   Method.info firstArg args (c, t) =
     (Return tt, (c, t ++ wrote (_stdout c) d LogType.info (format (firstArg :: args)))) /\
   Method.debug firstArg args (c, t) =
     (Return tt, (c, t ++ wrote (_stdout c) d LogType.debug (format (firstArg :: args)))) /\
   Method.dirxml firstArg args (c, t) =
     (Return tt, (c, t ++ wrote (_stdout c) d LogType.dirxml (format (firstArg :: args)))) /\
   Method.dir firstArg options (c, t) =
     (Return tt,
      (c, t ++ wrote (_stdout c) d LogType.dir
                 (inspect firstArg (default emptyOptions options))))) /\
  (Method.error firstArg args (c, t) =
     (Return tt, (c, t ++ wrote (_stderr c) d LogType.error (format (firstArg :: args)))) /\
   Method.warn firstArg args (c, t) =
     (Return tt, (c, t ++ wrote (_stderr c) d LogType.warn (format (firstArg :: args)))) /\
   Method.assert value reason (c, t) =
     (Return tt,
      (c, t ++ if JS.truthy value then []
               else wrote (_stderr c) d LogType.assert (JS.toString (failure reason))))) /\
  (Method.count label (c, t) =
     (Return tt,
      (set_counters (JS.put l n (_counters c)) c,
       t ++ wrote (_stdout c) d LogType.count (l +:+ ": " +:+ JS.number_toString n))) /\
   Method.group title args (c, t) =
     (Return tt,
      (inside,
       t ++ if titled title args
            then wrote (_stdout c) (d + 1) LogType.group
                       (bold (format (optional title :: args)))
            else [])) /\
   Method.groupCollapsed title args (c, t) =
     (Return tt,
      (inside,
       t ++ if titled title args
            then wrote (_stdout c) (d + 1) LogType.groupCollapsed
                       (bold (format (optional title :: args)))
            else []))) /\
  (forall start,
      _timers c !! l = Some start ->
      Method.timeEnd now label (c, t) =
        (Return tt,
         (set_timers (delete l (_timers c)) c,
          t ++ wrote (_stdout c) d LogType.time
                 (l +:+ ": " +:+ formatTime (now - start)))) /\
      Method.timeLog now label data (c, t) =
        (Return tt,
         (c, t ++ wrote (_stdout c) d LogType.time
                    (format (JS.VString (l +:+ ": " +:+ formatTime (now - start))
                             :: data))))).
Proof.
  intros spaces wrote d l n inside.
  split; [split; [now rewrite _log_returns | now rewrite _logError_returns] |].
  split; [intros out err hook; split; reflexivity |].
  split.
  { unfold Method.log, Method.info, Method.debug, Method.dirxml, Method.dir.
    rewrite !_log_returns by exact Hdepth. repeat split. }
  split.
  { unfold Method.error, Method.warn.
    rewrite !_logError_returns by exact Hdepth. split; [reflexivity |].
    split; [reflexivity |].
    destruct (JS.truthy value) eqn:Hv.
    - rewrite assert_truthy by exact Hv. now rewrite app_nil_r.
    - now rewrite assert_falsy by assumption. }
  split.
  { rewrite count_returns by exact Hdepth.
    rewrite group_returns by exact Hdepth.
    rewrite groupCollapsed_returns by exact Hdepth.
    repeat split. }
  intros start Hrunning. split.
  - now rewrite (timeEnd_running _ _ _ _ _ Hrunning Hdepth).
  - now rewrite (timeLog_running _ _ _ _ _ _ Hrunning Hdepth).
Qed.

(** ** The properties at a console in use *)

(** At depth 1 the failed assertion is one line on stream 2, behind two
    spaces; the assertion of 7 is silent. *)
Lemma assert_false_logs_one_error_at_busy :
  (0 <= _groupDepth busy /\ JS.truthy (JS.VNumber (JS.Int 7)) = true) /\
  Method.assert (platform := plain_platform)
      (JS.VBoolean false) (Some (Node.MString "boom")) (busy, []) =
    (Return tt,
     (busy, [(2%nat, ClearLine);
             (2%nat, Write ("  AssertionError [ERR_ASSERTION]: boom" +:+ JS.LF))])) /\
  Method.assert (platform := plain_platform) (JS.VNumber (JS.Int 7)) None (busy, []) =
    (Return tt, (busy, [])).
Proof.
  split; [split; [simpl; lia | reflexivity] |].
  pose proof (assert_false_logs_one_error (platform := plain_platform)
                busy [] (JS.VNumber (JS.Int 7)) None
                ltac:(simpl; lia) eq_refl) as H.
  split; [exact (proj1 H) | exact (proj2 (proj2 (proj2 H)))].
Defined.

(** The timer "t" runs since 100: [time] at 130 changes nothing and [timeEnd]
    at 150 reports 50 ms. *)
Lemma time_running_is_noop_at_busy :
  (_timers busy !! labelled (Some "t") = Some 100 /\ 0 <= _groupDepth busy) /\
  Method.time 130 (Some "t") (busy, []) = (Return tt, (busy, [])) /\
  written 1%nat
    (snd (final ((Method.time 130 (Some "t") ;;
                  Method.timeEnd (platform := plain_platform) 150 (Some "t"))
                   (busy, [])))) =
    ["  t: 50 ms" +:+ JS.LF].
Proof.
  split; [split; [reflexivity | simpl; lia] |].
  pose proof (time_running_is_noop (platform := plain_platform)
                busy [] (Some "t") 100 130 150
                eq_refl ltac:(simpl; lia)) as H.
  split; [exact (proj1 H) |].
  exact (f_equal (fun r => written 1%nat (snd (final r))) (proj1 (proj2 H))).
Defined.

(** [timeLog] at 130 reports 30 ms and [timeEnd] at 150 still reports 50 ms. *)
Lemma timeLog_keeps_timer_at_busy :
  (_timers busy !! labelled (Some "t") = Some 100 /\ 0 <= _groupDepth busy) /\
  written 1%nat
    (snd (final ((Method.timeLog (platform := plain_platform) 130 (Some "t") [] ;;
                  Method.timeEnd (platform := plain_platform) 150 (Some "t"))
                   (busy, [])))) =
    ["  t: 30 ms" +:+ JS.LF; "  t: 50 ms" +:+ JS.LF].
Proof.
  split; [split; [reflexivity | simpl; lia] |].
  pose proof (timeLog_keeps_timer (platform := plain_platform)
                busy [] (Some "t") [] 100 130 150
                eq_refl ltac:(simpl; lia)) as H.
  exact (f_equal (fun r => written 1%nat (snd (final r))) (proj2 H)).
Defined.

(** At depth 1 both writers put two spaces before the message, and so do
    [log] and [warn]. *)
Lemma writing_methods_format_at_busy :
  0 <= _groupDepth busy /\
  (Method._log LogType.log "hello" (busy, []) =
     (Return tt,
      (busy, [(1%nat, ClearLine); (1%nat, Write ("  hello" +:+ JS.LF))])) /\
   Method._logError LogType.log "hello" (busy, []) =
     (Return tt,
      (busy, [(2%nat, ClearLine); (2%nat, Write ("  hello" +:+ JS.LF))]))) /\
  Method.warn (platform := plain_platform) (JS.VString "careful") [] (busy, []) =
    (Return tt,
     (busy, [(2%nat, ClearLine); (2%nat, Write ("  careful" +:+ JS.LF))])).
Proof.
  pose proof (writing_methods_format (platform := plain_platform)
                busy [] LogType.log "hello" (JS.VString "careful") [] []
                None None None JS.VNull None 0 ltac:(simpl; lia)) as H.
  split; [simpl; lia |].
  split; [exact (proj1 H) |].
  exact (proj1 (proj2 (proj1 (proj2 (proj2 (proj2 H)))))).
Defined.

(** Three grouping calls on a new console. *)
Lemma groupDepth_after_calls_at_new :
  Forall (fun call => grouping (platform := plain_platform) call = true)
         [Call.groupEnd; Call.group None []; Call.group (Some "a") []] /\
  depth_after (platform := plain_platform) (new 1%nat 2%nat None, [])
              [Call.groupEnd; Call.group None []; Call.group (Some "a") []] =
  net (platform := plain_platform)
      [Call.groupEnd; Call.group None []; Call.group (Some "a") []] -
  low (platform := plain_platform)
      [Call.groupEnd; Call.group None []; Call.group (Some "a") []].
Proof.
  assert (H : Forall (fun call => grouping (platform := plain_platform) call = true)
                     [Call.groupEnd; Call.group None []; Call.group (Some "a") []])
    by (repeat constructor).
  split; [exact H |].
  exact (proj1 (proj2 (groupDepth_after_calls (platform := plain_platform)
                         1%nat 2%nat None []
                         [Call.groupEnd; Call.group None []; Call.group (Some "a") []]
                         H))).
Defined.

(** * Further properties of the class *)

(** ** What a call writes and what it leaves alone *)

Section Shape.
Context {platform : Platform}.

(** X1.  A call at a depth that is not negative, other than a [timeEnd] or
    [timeLog] of a name of [Object.prototype], returns; what it adds to the
    trace is nothing or one line, on the stream of its method ([assert],
    [error] and [warn] on the error stream, the others on the output stream)
    and with the log type of its method; when the two streams differ, the
    other one receives nothing. *)
Theorem each_method_has_its_stream_and_type
    (c : CustomConsole) (t : trace) (call : Call.t)
    (Hdepth : 0 <= _groupDepth c) (Hsafe : safe call) :
  exists c' added,
    Call.invoke call (c, t) = (Return tt, (c', t ++ added)) /\
    (added = [] \/
     exists type message,
       type_of call = Some type /\ added = line (sink_of call c) c' type message) /\
    (_stdout c <> _stderr c ->
     written (if to_stderr call then _stdout c else _stderr c) (t ++ added) =
     written (if to_stderr call then _stdout c else _stderr c) t).
Proof.
  destruct (invoke_any c t call Hdepth) as (r & c' & added & E & Hr & _ & Hadded).
  rewrite (Hr Hsafe) in E.
  exists c', added. split; [exact E |]. split; [exact Hadded |].
  intros Hstreams. rewrite written_app.
  destruct Hadded as [->|(type & message & _ & ->)]; [now rewrite app_nil_r |].
  rewrite written_line. unfold sink_of.
  destruct (to_stderr call);
    (destruct (decide _) as [Heq|_]; [congruence | now rewrite app_nil_r]).
Qed.

(** X2.  A run of calls that starts at a depth that is not negative only
    appends to the trace, whether it returns or stops at a call that throws;
    what it appends is made of lines, each a clearing of the output or of the
    error stream followed at once by a chunk, ended by a line feed, on the
    same stream.  No other stream is touched, and the console keeps its two
    streams and its formatter.  The run returns when it has no [timeEnd] or
    [timeLog] of a name of [Object.prototype]. *)
Theorem run_appends_lines
    (calls : list Call.t) (c : CustomConsole) (t : trace)
    (Hdepth : 0 <= _groupDepth c) :
  exists r c' added,
    Call.run calls (c, t) = (r, (c', t ++ added)) /\
    lines_on (_stdout c) (_stderr c) added /\
    (forall h, h <> _stdout c -> h <> _stderr c ->
               written h (t ++ added) = written h t) /\
    _stdout c' = _stdout c /\ _stderr c' = _stderr c /\
    _formatBuffer c' = _formatBuffer c /\
    (Forall safe calls -> r = Return tt).
Proof.
  destruct (run_any calls c t Hdepth)
    as (r & c' & added & E & Hr & Ho & He & Hf & _ & _ & _ & Hl).
  exists r, c', added. repeat split; try assumption.
  - intros h Hho Hhe. rewrite written_app.
    rewrite (lines_on_elsewhere _ _ _ _ Hl Hho Hhe). apply app_nil_r.
  - intros Hsafe. now destruct (Hr Hsafe).
Qed.

End Shape.

(** ** Labels do not interfere *)

Section Labels.
Context {platform : Platform}.

(** A relation between consoles that every call of a kind [P] respects is
    respected by every run of such calls, however the run ends. *)
Lemma run_respects (P : Call.t -> Prop) (R : CustomConsole -> CustomConsole -> Prop) :
  (forall c, R c c) ->
  (forall c1 c2 c3, R c1 c2 -> R c2 c3 -> R c1 c3) ->
  (forall call c c', P call -> step_ok call c c' -> R c c') ->
  forall calls c t,
    Forall P calls -> 0 <= _groupDepth c ->
    exists r c' added,
      Call.run calls (c, t) = (r, (c', t ++ added)) /\ R c c'.
Proof.
  intros Hrefl Htrans Hstep.
  induction calls as [|call rest IH]; intros c t HP Hd.
  - exists (Return tt), c, []. simpl. rewrite app_nil_r. auto.
  - apply Forall_cons in HP as [Hcall Hrest].
    destruct (invoke_any c t call Hd) as (r1 & c1 & evs1 & E1 & _ & Hok & _).
    assert (Hd1' : 0 <= _groupDepth c1)
      by (rewrite (step_groupDepth _ _ _ Hok); now apply step_depth_nonneg).
    pose proof (Hstep call c c1 Hcall Hok) as HR1.
    destruct r1 as [[]|e].
    + destruct (IH c1 (t ++ evs1) Hrest Hd1') as (r & c2 & evs2 & E2 & HR).
      exists r, c2, (evs1 ++ evs2).
      rewrite (run_cons _ _ _ _ E1). rewrite <- app_assoc in E2.
      split; [exact E2 |]. now apply Htrans with c1.
    + exists (Throw e), c1, evs1.
      rewrite (run_cons_throws _ _ _ _ _ E1). auto.
Qed.

(** X3.  The counters do not interfere, and nothing but [count] and
    [countReset] assigns them: a run without a [count] or [countReset] of a
    label, however it ends, leaves the counter of that label as it was,
    present or absent. *)
Theorem counter_changes_only_by_its_label
    (calls : list Call.t) (c : CustomConsole) (t : trace) (l : string)
    (Hdepth : 0 <= _groupDepth c)
    (Hcalls : Forall (fun call => counter_of call <> Some l) calls) :
  exists r c' added,
    Call.run calls (c, t) = (r, (c', t ++ added)) /\
    _counters c' !! l = _counters c !! l.
Proof.
  apply (run_respects (fun call => counter_of call <> Some l)
           (fun c c' => _counters c' !! l = _counters c !! l));
    try assumption; [reflexivity | intros; congruence |].
  intros call c0 c' Hcall Hok. now apply (step_counters _ _ _ Hok).
Qed.

(** X4.  The timers do not interfere, and nothing but [time] and [timeEnd]
    assigns them: a run without a [time] or [timeEnd] of a label, however it
    ends, leaves the timer of that label as it was, so a timer that runs
    keeps its instant through any other logging, [timeLog] of its own label
    included. *)
Theorem timer_changes_only_by_its_label
    (calls : list Call.t) (c : CustomConsole) (t : trace) (l : string)
    (Hdepth : 0 <= _groupDepth c)
    (Hcalls : Forall (fun call => timer_of call <> Some l) calls) :
  exists r c' added,
    Call.run calls (c, t) = (r, (c', t ++ added)) /\
    _timers c' !! l = _timers c !! l.
Proof.
  apply (run_respects (fun call => timer_of call <> Some l)
           (fun c c' => _timers c' !! l = _timers c !! l));
    try assumption; [reflexivity | intros; congruence |].
  intros call c0 c' Hcall Hok. now apply (step_timers _ _ _ Hok).
Qed.

Lemma count_lines_set_counters m c l j k :
  count_lines (set_counters m c) l j k = count_lines c l j k.
Proof.
  revert j. induction k as [|k IH]; intros j; [reflexivity |].
  simpl. now rewrite IH.
Qed.

Lemma counted_after j :
  0 <= j -> j + 1 < JS.MAX_EXACT ->
  counted (JS.Holds (JS.Int (j + 1))) = JS.Int (j + 1 + 1).
Proof.
  intros Hj Hb. unfold counted; simpl.
  destruct (j + 1 =? 0) eqn:E0; [apply Z.eqb_eq in E0; lia |]. simpl.
  destruct (j + 1 <? JS.MAX_EXACT) eqn:E1; [reflexivity | apply Z.ltb_ge in E1; lia].
Qed.

(** X5.  Counting.  When the next [count] of a label would show [j + 1],
    which is so with [j = 0] for a label never counted or just reset (and not
    a name of [Object.prototype]), [k] calls of [count] with that label
    (omitted labels standing for ["default"]) return, log the label with
    [j + 1], ..., [j + k] on [k] lines of the output stream, in this order,
    and the next [count] would show [j + k + 1]; this as long as the numbers
    stay below 2^53, where [++] stops being exact. *)
Theorem count_counts_up
    (labels : list (option string)) (l : string) (j : Z)
    (c : CustomConsole) (t : trace)
    (Hdepth : 0 <= _groupDepth c)
    (Hlabels : Forall (fun label => labelled label = l) labels)
    (Hj : 0 <= j)
    (Hbound : j + Z.of_nat (length labels) < JS.MAX_EXACT)
    (Hnext : counted (JS.get (_counters c) l) = JS.Int (j + 1)) :
  exists c',
    Call.run (map Call.count labels) (c, t) =
      (Return tt, (c', t ++ count_lines c l j (length labels))) /\
    counted (JS.get (_counters c') l) = JS.Int (j + Z.of_nat (length labels) + 1) /\
    _groupDepth c' = _groupDepth c /\ _timers c' = _timers c.
Proof.
  revert j c t Hdepth Hj Hbound Hnext.
  induction labels as [|label rest IH]; intros j c t Hd Hj Hb Hnext.
  - exists c. simpl. rewrite app_nil_r, Z.add_0_r. auto.
  - apply Forall_cons in Hlabels as [Hlabel Hrest].
    simpl length in Hb.
    pose proof (count_returns c t label Hd) as E. simpl in E.
    rewrite Hlabel, Hnext in E.
    assert (Hput : JS.put l (JS.Int (j + 1)) (_counters c) =
                   <[l := JS.Int (j + 1)]> (_counters c)).
    { apply put_stores. left. intros HB. rewrite HB in Hnext. discriminate. }
    rewrite Hput in E.
    set (c1 := set_counters (<[l := JS.Int (j + 1)]> (_counters c)) c) in E.
    assert (Hnext1 : counted (JS.get (_counters c1) l) = JS.Int (j + 1 + 1)).
    { simpl. unfold LogCounters in *.
      rewrite (get_own _ _ _ (lookup_insert_eq _ _ _)).
      apply counted_after; lia. }
    destruct (IH Hrest (j + 1) c1
                (t ++ line (_stdout c) c LogType.count
                        (l +:+ ": " +:+ JS.number_toString (JS.Int (j + 1))))
                Hd ltac:(lia) ltac:(lia) Hnext1)
      as (c2 & E2 & Hn2 & Hd2 & Ht2).
    unfold c1 in E2 at 2. rewrite count_lines_set_counters in E2.
    exists c2. split; [| split; [| split]].
    + change (map Call.count (label :: rest))
        with (Call.count label :: map Call.count rest).
      rewrite (run_cons (Call.count label) _ (c, t) _ E).
      rewrite <- app_assoc in E2. exact E2.
    + rewrite Hn2. f_equal. simpl length. lia.
    + exact Hd2.
    + exact Ht2.
Qed.

End Labels.

(** ** The life of a timer *)

Section Timers.
Context {platform : Platform}.

(** X6.  A timer leaves no trace in the console: for a label that has no
    timer and is not a name of [Object.prototype], [time] and then [timeEnd]
    return, log one line with the time between the two calls, and leave the
    console exactly as it was. *)
Theorem time_then_timeEnd_restores
    (c : CustomConsole) (t : trace) (label : option string) (start now : Z)
    (Hidle : JS.get (_timers c) (labelled label) = JS.Undefined)
    (Hdepth : 0 <= _groupDepth c) :
  (Method.time start label ;; Method.timeEnd now label) (c, t) =
    (Return tt,
     (c, t ++ line (_stdout c) c LogType.time
                (labelled label +:+ ": " +:+ formatTime (now - start)))).
Proof.
  unfold bind. rewrite (time_idle _ _ _ _ Hidle).
  set (c1 := set_timers (<[labelled label := start]> (_timers c)) c).
  assert (H1 : _timers c1 !! labelled label = Some start)
    by (simpl; unfold LogTimers in *; apply lookup_insert_eq).
  rewrite (timeEnd_running _ _ _ _ _ H1) by exact Hdepth.
  unfold c1, line, indent, set_timers; simpl.
  apply get_Undefined in Hidle as [Hnone _].
  unfold LogTimers in *. rewrite delete_insert_id by exact Hnone.
  now destruct c.
Qed.

(** X7.  [timeEnd] stops the timer: after it, a second [timeEnd] and a
    [timeLog] of the label are silent, and a [time] starts a new measure, so
    that [timeEnd], [time], [timeEnd] report first the time since the old
    start and then the time since the new one.  The label is not a name of
    [Object.prototype], as no label with a timer is in a console the class
    has built. *)
Theorem timeEnd_stops_the_timer
    (c : CustomConsole) (t : trace) (label : option string)
    (data : list JS.value) (start now1 now2 now3 : Z)
    (Hrunning : _timers c !! labelled label = Some start)
    (Hlabel : JS.inherited (labelled label) = false)
    (Hdepth : 0 <= _groupDepth c) :
  let l := labelled label in
  let idle := set_timers (delete l (_timers c)) c in
  let report (elapsed : Z) :=
    line (_stdout c) c LogType.time (l +:+ ": " +:+ formatTime elapsed) in
  (Method.timeEnd now1 label ;; Method.timeEnd now2 label ;;
   Method.timeLog now3 label data) (c, t) =
    (Return tt, (idle, t ++ report (now1 - start))) /\
  (Method.timeEnd now1 label ;; Method.time now2 label ;;
   Method.timeEnd now3 label) (c, t) =
    (Return tt, (idle, t ++ report (now1 - start) ++ report (now3 - now2))).
Proof.
  intros l idle report.
  assert (Hidle : JS.get (_timers idle) (labelled label) = JS.Undefined).
  { apply get_Undefined. split; [| exact Hlabel].
    simpl. unfold LogTimers in *. apply lookup_delete_eq. }
  split; unfold bind; rewrite (timeEnd_running _ _ _ _ _ Hrunning Hdepth).
  - fold l idle. rewrite (timeEnd_idle _ _ _ _ Hidle).
    now rewrite (timeLog_idle _ _ _ _ _ Hidle).
  - fold l idle. rewrite (time_idle _ _ _ _ Hidle).
    set (c1 := set_timers (<[labelled label := now2]> (_timers idle)) idle).
    assert (H1 : _timers c1 !! labelled label = Some now2)
      by (simpl; unfold LogTimers in *; apply lookup_insert_eq).
    rewrite (timeEnd_running _ _ _ _ _ H1) by exact Hdepth.
    unfold c1, idle, report, line, indent, set_timers; simpl. fold l.
    unfold LogTimers in *.
    rewrite delete_insert_eq, delete_delete_eq. now rewrite <- app_assoc.
Qed.

End Timers.

(** ** Groups and indentation *)

Section Groups.
Context {platform : Platform}.

Lemma repeat_nat_succ s d :
  0 <= d -> JS.repeat_nat s (Z.to_nat (d + 1)) = s +:+ JS.repeat_nat s (Z.to_nat d).
Proof. intros Hd. now rewrite Z2Nat.inj_add, Nat.add_comm by lia. Qed.

Lemma append_length (a b : string) :
  String.length (a +:+ b) = (String.length a + String.length b)%nat.
Proof.
  induction a as [|ch a IH]; [reflexivity |].
  change (S (String.length (a +:+ b)) = S (String.length a + String.length b)).
  now rewrite IH.
Qed.

Lemma repeat_nat_length s n :
  String.length (JS.repeat_nat s n) = (n * String.length s)%nat.
Proof.
  induction n as [|n IH]; [reflexivity |].
  simpl. rewrite append_length, IH. lia.
Qed.

(** X8.  The indentation is two characters for each level of depth, and a
    [group] puts two more spaces in front of it: the title of the group, if
    it is written, and the lines that follow start with those two spaces and
    then the indentation there was before. *)
Theorem group_indents_by_two_spaces
    (c : CustomConsole) (t : trace)
    (title : option string) (args : list JS.value)
    (Hdepth : 0 <= _groupDepth c) :
  String.length (indent c) = (2 * Z.to_nat (_groupDepth c))%nat /\
  exists c' added,
    Method.group title args (c, t) = (Return tt, (c', t ++ added)) /\
    indent c' = "  " +:+ indent c /\
    _counters c' = _counters c /\ _timers c' = _timers c /\
    (added = [] \/
     added = [(_stdout c, ClearLine);
              (_stdout c,
               Write (_formatBuffer c LogType.group
                        ("  " +:+ indent c +:+ bold (format (optional title :: args)))
                      +:+ JS.LF))]).
Proof.
  split.
  - unfold indent. rewrite repeat_nat_length. simpl. lia.
  - rewrite group_returns by exact Hdepth. do 2 eexists.
    split; [reflexivity |].
    assert (Hi : indent (set_groupDepth (_groupDepth c + 1) c) = "  " +:+ indent c)
      by (unfold indent; simpl; now apply repeat_nat_succ).
    split; [exact Hi |]. split; [reflexivity |]. split; [reflexivity |].
    destruct (titled title args); [right | now left].
    unfold line. rewrite Hi. simpl. now rewrite append_assoc.
Qed.

(** X9.  [groupEnd] undoes [group]: at a depth that is not negative, a
    [group] (or [groupCollapsed]) followed by [groupEnd] returns and leaves
    the console exactly as it was; only the title, if there is one, has been
    written. *)
Theorem group_then_groupEnd_restores
    (c : CustomConsole) (t : trace)
    (title : option string) (args : list JS.value)
    (Hdepth : 0 <= _groupDepth c) :
  let inside := set_groupDepth (_groupDepth c + 1) c in
  let shown := bold (format (optional title :: args)) in
  (Method.group title args ;; Method.groupEnd) (c, t) =
    (Return tt,
     (c, t ++ if titled title args
              then line (_stdout c) inside LogType.group shown else [])) /\
  (Method.groupCollapsed title args ;; Method.groupEnd) (c, t) =
    (Return tt,
     (c, t ++ if titled title args
              then line (_stdout c) inside LogType.groupCollapsed shown else [])).
Proof.
  intros inside shown.
  assert (Hback : forall t', Method.groupEnd (inside, t') = (Return tt, (c, t'))).
  { intros t'. rewrite groupEnd_returns. unfold inside; simpl.
    destruct (0 <? _groupDepth c + 1) eqn:E; [| apply Z.ltb_ge in E; lia].
    replace (_groupDepth c + 1 - 1) with (_groupDepth c) by lia.
    now destruct c. }
  split; unfold bind.
  - rewrite group_returns by exact Hdepth. apply Hback.
  - rewrite groupCollapsed_returns by exact Hdepth. apply Hback.
Qed.

(** X10.  Nesting.  From a console at depth [d], a run that never closes
    more groups than are open (no prefix of it brings the depth below zero)
    and has no [timeEnd] or [timeLog] of a name of [Object.prototype] returns
    and ends at [d] plus its number of [group] and [groupCollapsed] calls
    minus its number of [groupEnd] calls; a run in which the groups opened
    are closed again ends at the depth and with the indentation it began
    with. *)
Theorem nested_run_changes_depth_by_net
    (calls : list Call.t) (c : CustomConsole) (t : trace)
    (Hdepth : 0 <= _groupDepth c)
    (Hsafe : Forall safe calls)
    (Hopen : 0 <= _groupDepth c + low calls) :
  exists c' added,
    Call.run calls (c, t) = (Return tt, (c', t ++ added)) /\
    _groupDepth c' = _groupDepth c + net calls /\
    indent c' = JS.repeat_nat "  " (Z.to_nat (_groupDepth c + net calls)).
Proof.
  destruct (run_returns calls c t Hdepth Hsafe)
    as (c' & added & E & _ & _ & _ & _ & Hn & _).
  exists c', added. split; [exact E |].
  assert (Hd' : _groupDepth c' = _groupDepth c + net calls) by lia.
  split; [exact Hd' |]. unfold indent. now rewrite Hd'.
Qed.

End Groups.

(** ** Titles, assertions and the formatter *)

Section Messages.
Context {platform : Platform}.

(** X11.  The title rule of [group]: nothing is written when the title is
    absent or empty and there is no further argument; in every other case one
    line is written, at the raised depth, with the bold format of the title
    and the arguments.  An absent title with arguments is formatted as the
    value [undefined] in front of them. *)
Theorem group_writes_title_unless_empty
    (c : CustomConsole) (t : trace)
    (title : option string) (args : list JS.value)
    (Hdepth : 0 <= _groupDepth c) :
  let c' := set_groupDepth (_groupDepth c + 1) c in
  Method.group title args (c, t) =
    (Return tt,
     (c', t ++ match title, args with
               | None, [] | Some EmptyString, [] => []
               | _, _ => line (_stdout c) c' LogType.group
                              (bold (format (optional title :: args)))
               end)) /\
  (forall a rest,
      format (optional None :: a :: rest) =
      JS.join " " (formatValue None JS.VUndefined :: map (showArgument None) (a :: rest))).
Proof.
  intros c'. split; [| reflexivity].
  rewrite group_returns by exact Hdepth. fold c'.
  destruct title as [[|ch s]|], args as [|a rest]; reflexivity.
Qed.

(** X12.  [assert] never throws and never changes the console, whatever the
    value and the message: a truthy value writes nothing; a falsy one writes
    one line on the error stream, the text of what Node's [assert] threw: the
    [Error] given as message, shown by its own name and message, or an
    [AssertionError] with the message given or made up. *)
Theorem assert_logs_what_was_thrown
    (c : CustomConsole) (t : trace)
    (value : JS.value) (message : option Node.assert_message)
    (Hdepth : 0 <= _groupDepth c) :
  Method.assert value message (c, t) =
    (Return tt,
     (c, t ++ if JS.truthy value then []
              else line (_stderr c) c LogType.assert
                        (match message with
                         | Some (Node.MError e) => JS.toString (JS.Thrown e)
                         | Some (Node.MString s) =>
                             "AssertionError [ERR_ASSERTION]: " +:+ s
                         | None =>
                             "AssertionError [ERR_ASSERTION]: " +:+ generatedMessage
                         end))).
Proof.
  destruct (JS.truthy value) eqn:Hv.
  - rewrite assert_truthy by exact Hv. now rewrite app_nil_r.
  - rewrite assert_falsy by assumption. now destruct message as [[s|e]|].
Qed.

Lemma _log_type_irrelevant c t type type' message :
  (forall text, _formatBuffer c type text = _formatBuffer c type' text) ->
  Method._log type message (c, t) = Method._log type' message (c, t).
Proof.
  intros Hhook. unfold Method._log, clearLine, Node.Console_log.
  unfold bind, this, emit, lift; simpl.
  destruct (JS.String_repeat "  " (_groupDepth c)) as [e|spaces]; simpl;
    [reflexivity | now rewrite Hhook].
Qed.

Lemma _logError_type_irrelevant c t type type' message :
  (forall text, _formatBuffer c type text = _formatBuffer c type' text) ->
  Method._logError type message (c, t) = Method._logError type' message (c, t).
Proof.
  intros Hhook. unfold Method._logError, clearLine, Node.Console_error.
  unfold bind, this, emit, lift; simpl.
  destruct (JS.String_repeat "  " (_groupDepth c)) as [e|spaces]; simpl;
    [reflexivity | now rewrite Hhook].
Qed.

(** X13.  The methods of a family differ by the log type only: with a
    formatter that does not look at the type (the default one does not),
    [log], [info], [debug] and [dirxml] do the same on the same arguments, so
    do [error] and [warn], and so do [group] and [groupCollapsed]. *)
Theorem formatter_blind_to_type_merges_methods
    (c : CustomConsole) (t : trace)
    (firstArg : JS.value) (args : list JS.value) (title : option string)
    (Hblind : forall type type' text,
        _formatBuffer c type text = _formatBuffer c type' text) :
  Method.info firstArg args (c, t) = Method.log firstArg args (c, t) /\
  Method.debug firstArg args (c, t) = Method.log firstArg args (c, t) /\
  Method.dirxml firstArg args (c, t) = Method.log firstArg args (c, t) /\
  Method.warn firstArg args (c, t) = Method.error firstArg args (c, t) /\
  Method.groupCollapsed title args (c, t) = Method.group title args (c, t).
Proof.
  repeat split.
  - apply _log_type_irrelevant. intros text. apply Hblind.
  - apply _log_type_irrelevant. intros text. apply Hblind.
  - apply _log_type_irrelevant. intros text. apply Hblind.
  - apply _logError_type_irrelevant. intros text. apply Hblind.
  - unfold Method.groupCollapsed, Method.group, bind, update; simpl.
    destruct (JS.truthy (optional title) || (0 <? Z.of_nat (length args)));
      [| reflexivity].
    apply _log_type_irrelevant. intros text. apply Hblind.
Qed.

End Messages.

(** ** Labels and the names of [Object.prototype] *)

Section Names.
Context {platform : Platform}.

(** X14.  For a label that has no timer and is not a name of
    [Object.prototype], [timeEnd] and [timeLog] return and change neither the
    console nor the streams. *)
Theorem timeEnd_and_timeLog_of_unknown_label_are_silent
    (c : CustomConsole) (t : trace) (label : option string)
    (data : list JS.value) (now : Z)
    (Hunknown : JS.get (_timers c) (labelled label) = JS.Undefined) :
  Method.timeEnd now label (c, t) = (Return tt, (c, t)) /\
  Method.timeLog now label data (c, t) = (Return tt, (c, t)).
Proof.
  split; [now apply timeEnd_idle | now apply timeLog_idle].
Qed.

(** X15.  A name of [Object.prototype] can never be timed.  Whatever calls
    were made on a new console, and however they ended, [time] of such a
    label returns without storing an instant, and [timeEnd] and [timeLog] of
    it throw a [TypeError]; none of the three writes anything or changes the
    console. *)
Theorem inherited_name_is_never_timed
    (out err : WriteStream) (hook : option Formatter) (t : trace)
    (calls : list Call.t) (label : option string)
    (data : list JS.value) (now : Z)
    (Hname : JS.inherited (labelled label) = true) :
  let s := final (Call.run calls (new out err hook, t)) in
  _timers (fst s) !! labelled label = None /\
  Method.time now label s = (Return tt, s) /\
  Method.timeEnd now label s = (Throw getTime_is_not_a_function, s) /\
  Method.timeLog now label data s = (Throw getTime_is_not_a_function, s).
Proof.
  intros s. subst s.
  assert (H0 : 0 <= _groupDepth (new out err hook)) by (simpl; lia).
  destruct (run_any calls _ t H0)
    as (r & c' & evs & E & _ & _ & _ & _ & _ & _ & Ht & _).
  rewrite E. unfold final; simpl.
  specialize (Ht timers_ok_empty).
  assert (Hnone : _timers c' !! labelled label = None).
  { destruct (_timers c' !! labelled label) as [start|] eqn:El; [| reflexivity].
    apply Ht in El. congruence. }
  assert (HB : JS.get (_timers c') (labelled label) = JS.Builtin)
    by (apply get_Builtin; auto).
  split; [exact Hnone |].
  split; [now apply time_inherited |].
  split; [now apply timeEnd_inherited | now apply timeLog_inherited].
Qed.

(** X16.  On a console whose depth is not negative, whatever its counters
    hold, [countReset] of a label other than ["__proto__"] and then [count]
    of it return, leave the counter of the label at 1, and log the text made
    of the label, a colon, a space and 1: one line on the output stream. *)
Theorem countReset_then_count_logs_one
    (c : CustomConsole) (t : trace) (label : option string)
    (Hdepth : 0 <= _groupDepth c)
    (Hlabel : labelled label <> "__proto__") :
  let l := labelled label in
  (Method.countReset label ;; Method.count label) (c, t) =
    (Return tt,
     (set_counters (<[l := JS.Int 1]> (_counters c)) c,
      t ++ line (_stdout c) c LogType.count (l +:+ ": 1"))).
Proof.
  intros l. unfold bind. rewrite countReset_returns.
  rewrite count_returns by exact Hdepth. fold l. simpl.
  rewrite (put_stores l (JS.Int 0)) by (right; exact Hlabel).
  unfold LogCounters in *.
  rewrite (get_own _ _ _ (lookup_insert_eq _ _ _)).
  rewrite put_stores by (right; exact Hlabel).
  unfold set_counters; simpl. now rewrite insert_insert_eq.
Qed.


End Names.

(** ** The further properties at a console in use *)

(** A warning at the console in use reaches stream 2 and not stream 1. *)
Lemma each_method_has_its_stream_and_type_at_busy :
  (0 <= _groupDepth busy /\
   safe (platform := plain_platform) (Call.warn (JS.VString "careful") [])) /\
  exists c' added,
    Call.invoke (platform := plain_platform)
        (Call.warn (JS.VString "careful") []) (busy, []) =
      (Return tt, (c', [] ++ added)) /\
    (added = [] \/
     exists type message,
       type_of (platform := plain_platform)
               (Call.warn (JS.VString "careful") []) = Some type /\
       added = line (sink_of (platform := plain_platform)
                             (Call.warn (JS.VString "careful") []) busy)
                    c' type message) /\
    (_stdout busy <> _stderr busy ->
     written 1%nat ([] ++ added) = written 1%nat []).
Proof.
  split; [split; [simpl; lia | exact I] |].
  apply (each_method_has_its_stream_and_type (platform := plain_platform)
           busy [] (Call.warn (JS.VString "careful") []));
    [simpl; lia | exact I].
Defined.

(** A run of three calls at the console in use. *)
Lemma run_appends_lines_at_busy :
  0 <= _groupDepth busy /\
  exists r c' added,
    Call.run (platform := plain_platform)
        [Call.log (JS.VString "a") []; Call.groupEnd; Call.error (JS.VString "b") []]
        (busy, []) =
      (r, (c', [] ++ added)) /\
    lines_on (_stdout busy) (_stderr busy) added /\
    (forall h, h <> _stdout busy -> h <> _stderr busy ->
               written h ([] ++ added) = written h []) /\
    _stdout c' = _stdout busy /\ _stderr c' = _stderr busy /\
    _formatBuffer c' = _formatBuffer busy /\
    (Forall (safe (platform := plain_platform))
            [Call.log (JS.VString "a") []; Call.groupEnd;
             Call.error (JS.VString "b") []] ->
     r = Return tt).
Proof.
  split; [simpl; lia |].
  apply (run_appends_lines (platform := plain_platform)). simpl; lia.
Defined.

(** Counting "m" and timing "t" leave the counter "n" at 3. *)
Lemma counter_changes_only_by_its_label_at_busy :
  (0 <= _groupDepth busy /\
   Forall (fun call => counter_of (platform := plain_platform) call <> Some "n")
          [Call.count (Some "m"); Call.timeEnd 150 (Some "t")]) /\
  exists r c' added,
    Call.run (platform := plain_platform)
        [Call.count (Some "m"); Call.timeEnd 150 (Some "t")] (busy, []) =
      (r, (c', [] ++ added)) /\
    _counters c' !! "n" = _counters busy !! "n".
Proof.
  assert (H : Forall (fun call => counter_of (platform := plain_platform) call <> Some "n")
                     [Call.count (Some "m"); Call.timeEnd 150 (Some "t")])
    by (repeat constructor; simpl; congruence).
  split; [split; [simpl; lia | exact H] |].
  apply (counter_changes_only_by_its_label (platform := plain_platform));
    [simpl; lia | exact H].
Defined.

(** Logging, [timeLog] of "t" and a timer "u" leave the timer "t" at 100. *)
Lemma timer_changes_only_by_its_label_at_busy :
  (0 <= _groupDepth busy /\
   Forall (fun call => timer_of (platform := plain_platform) call <> Some "t")
          [Call.timeLog 120 (Some "t") []; Call.time 130 (Some "u")]) /\
  exists r c' added,
    Call.run (platform := plain_platform)
        [Call.timeLog 120 (Some "t") []; Call.time 130 (Some "u")] (busy, []) =
      (r, (c', [] ++ added)) /\
    _timers c' !! "t" = _timers busy !! "t".
Proof.
  assert (H : Forall (fun call => timer_of (platform := plain_platform) call <> Some "t")
                     [Call.timeLog 120 (Some "t") []; Call.time 130 (Some "u")])
    by (repeat constructor; simpl; congruence).
  split; [split; [simpl; lia | exact H] |].
  apply (timer_changes_only_by_its_label (platform := plain_platform));
    [simpl; lia | exact H].
Defined.

(** The counter "n" holds 3: two more counts show 4 and 5. *)
Lemma count_counts_up_at_busy :
  (0 <= _groupDepth busy /\
   Forall (fun label => labelled label = "n") [Some "n"; Some "n"] /\
   0 <= 3 /\ 3 + Z.of_nat 2 < JS.MAX_EXACT /\
   counted (JS.get (_counters busy) "n") = JS.Int (3 + 1)) /\
  exists c',
    Call.run (platform := plain_platform)
        (map Call.count [Some "n"; Some "n"]) (busy, []) =
      (Return tt,
       (c', [] ++ [(1%nat, ClearLine); (1%nat, Write ("  n: 4" +:+ JS.LF));
                   (1%nat, ClearLine); (1%nat, Write ("  n: 5" +:+ JS.LF))])) /\
    counted (JS.get (_counters c') "n") = JS.Int (3 + Z.of_nat 2 + 1) /\
    _groupDepth c' = _groupDepth busy /\ _timers c' = _timers busy.
Proof.
  assert (H : Forall (fun label => labelled label = "n") [Some "n"; Some "n"])
    by (repeat constructor).
  assert (Hb : 3 + Z.of_nat 2 < JS.MAX_EXACT) by reflexivity.
  split; [split; [simpl; lia | split; [exact H | split; [lia | split; [exact Hb | reflexivity]]]] |].
  apply (count_counts_up (platform := plain_platform)
           [Some "n"; Some "n"] "n" 3 busy [] ltac:(simpl; lia) H ltac:(lia) Hb eq_refl).
Defined.

(** A timer "u" from 200 to 260 at the console in use. *)
Lemma time_then_timeEnd_restores_at_busy :
  (JS.get (_timers busy) (labelled (Some "u")) = JS.Undefined /\
   0 <= _groupDepth busy) /\
  (Method.time 200 (Some "u") ;;
   Method.timeEnd (platform := plain_platform) 260 (Some "u")) (busy, []) =
    (Return tt,
     (busy, [(1%nat, ClearLine); (1%nat, Write ("  u: 60 ms" +:+ JS.LF))])).
Proof.
  split; [split; [reflexivity | simpl; lia] |].
  apply (time_then_timeEnd_restores (platform := plain_platform)
           busy [] (Some "u") 200 260 eq_refl ltac:(simpl; lia)).
Defined.

(** The timer "t" is stopped at 150 and started again at 160. *)
Lemma timeEnd_stops_the_timer_at_busy :
  (_timers busy !! labelled (Some "t") = Some 100 /\
   JS.inherited (labelled (Some "t")) = false /\ 0 <= _groupDepth busy) /\
  written 1%nat
    (snd (final ((Method.timeEnd (platform := plain_platform) 150 (Some "t") ;;
                  Method.time 160 (Some "t") ;;
                  Method.timeEnd (platform := plain_platform) 175 (Some "t"))
                   (busy, [])))) =
    ["  t: 50 ms" +:+ JS.LF; "  t: 15 ms" +:+ JS.LF].
Proof.
  split; [split; [reflexivity | split; [reflexivity | simpl; lia]] |].
  exact (f_equal (fun r => written 1%nat (snd (final r)))
           (proj2 (timeEnd_stops_the_timer (platform := plain_platform)
                     busy [] (Some "t") [] 100 150 160 175
                     eq_refl eq_refl ltac:(simpl; lia)))).
Defined.

(** A titled group at depth 1: the title has four spaces in front. *)
Lemma group_indents_by_two_spaces_at_busy :
  0 <= _groupDepth busy /\
  String.length (indent busy) = (2 * Z.to_nat (_groupDepth busy))%nat.
Proof.
  split; [simpl; lia |].
  exact (proj1 (group_indents_by_two_spaces (platform := plain_platform)
                  busy [] (Some "inner") [] ltac:(simpl; lia))).
Defined.

Lemma group_then_groupEnd_restores_at_busy :
  0 <= _groupDepth busy /\
  (Method.group (platform := plain_platform) (Some "inner") [] ;;
   Method.groupEnd) (busy, []) =
    (Return tt,
     (busy, [(1%nat, ClearLine); (1%nat, Write ("    inner" +:+ JS.LF))])).
Proof.
  split; [simpl; lia |].
  exact (proj1 (group_then_groupEnd_restores (platform := plain_platform)
                  busy [] (Some "inner") [] ltac:(simpl; lia))).
Defined.

(** A group opened and closed inside the group the console is in. *)
Lemma nested_run_changes_depth_by_net_at_busy :
  (0 <= _groupDepth busy /\
   Forall (safe (platform := plain_platform))
          [Call.groupEnd; Call.group None []; Call.group None []; Call.groupEnd] /\
   0 <= _groupDepth busy +
        low (platform := plain_platform)
            [Call.groupEnd; Call.group None []; Call.group None []; Call.groupEnd]) /\
  exists c' added,
    Call.run (platform := plain_platform)
        [Call.groupEnd; Call.group None []; Call.group None []; Call.groupEnd]
        (busy, []) =
      (Return tt, (c', [] ++ added)) /\
    _groupDepth c' = _groupDepth busy + 0 /\
    indent c' = "  ".
Proof.
  assert (H : Forall (safe (platform := plain_platform))
                [Call.groupEnd; Call.group None []; Call.group None []; Call.groupEnd])
    by (repeat constructor).
  split; [split; [simpl; lia | split; [exact H | simpl; lia]] |].
  apply (nested_run_changes_depth_by_net (platform := plain_platform)
           [Call.groupEnd; Call.group None []; Call.group None []; Call.groupEnd]
           busy []); [simpl; lia | exact H | simpl; lia].
Defined.

Lemma group_writes_title_unless_empty_at_busy :
  0 <= _groupDepth busy /\
  Method.group (platform := plain_platform) None [JS.VNumber (JS.Int 7)] (busy, []) =
    (Return tt,
     (set_groupDepth 2 busy,
      [(1%nat, ClearLine); (1%nat, Write ("    undefined 7" +:+ JS.LF))])).
Proof.
  split; [simpl; lia |].
  exact (proj1 (group_writes_title_unless_empty (platform := plain_platform)
                  busy [] None [JS.VNumber (JS.Int 7)] ltac:(simpl; lia))).
Defined.

(** A failed assertion whose message is a [TypeError]. *)
Lemma assert_logs_what_was_thrown_at_busy :
  0 <= _groupDepth busy /\
  Method.assert (platform := plain_platform) JS.VNull
      (Some (Node.MError {| JS.name := "TypeError"; JS.message := "bad" |}))
      (busy, []) =
    (Return tt,
     (busy, [(2%nat, ClearLine); (2%nat, Write ("  TypeError: bad" +:+ JS.LF))])).
Proof.
  split; [simpl; lia |].
  apply (assert_logs_what_was_thrown (platform := plain_platform)
           busy [] JS.VNull
           (Some (Node.MError {| JS.name := "TypeError"; JS.message := "bad" |}))
           ltac:(simpl; lia)).
Defined.

(** The formatter of the console in use does not look at the type. *)
Lemma formatter_blind_to_type_merges_methods_at_busy :
  (forall type type' text,
      _formatBuffer busy type text = _formatBuffer busy type' text) /\
  Method.info (platform := plain_platform) (JS.VString "a") [] (busy, []) =
  Method.log (platform := plain_platform) (JS.VString "a") [] (busy, []).
Proof.
  split; [reflexivity |].
  exact (proj1 (formatter_blind_to_type_merges_methods (platform := plain_platform)
                  busy [] (JS.VString "a") [] None
                  (fun type type' text => eq_refl))).
Defined.

(** No timer runs for "default" at the console in use. *)
Lemma timeEnd_and_timeLog_of_unknown_label_are_silent_at_busy :
  JS.get (_timers busy) (labelled None) = JS.Undefined /\
  Method.timeEnd (platform := plain_platform) 150 None (busy, []) =
    (Return tt, (busy, [])) /\
  Method.timeLog (platform := plain_platform) 150 None [] (busy, []) =
    (Return tt, (busy, [])).
Proof.
  split; [reflexivity |].
  exact (timeEnd_and_timeLog_of_unknown_label_are_silent (platform := plain_platform)
           busy [] None [] 150 eq_refl).
Defined.

(** After [time("valueOf")] on a new console, [timeEnd("valueOf")] throws. *)
Lemma inherited_name_is_never_timed_at_new :
  JS.inherited (labelled (Some "valueOf")) = true /\
  Method.timeEnd (platform := plain_platform) 20 (Some "valueOf")
    (final (Call.run (platform := plain_platform)
              [Call.time 10 (Some "valueOf")] (new 1%nat 2%nat None, []))) =
    (Throw getTime_is_not_a_function, (new 1%nat 2%nat None, [])).
Proof.
  split; [reflexivity |].
  exact (proj1 (proj2 (proj2
           (inherited_name_is_never_timed (platform := plain_platform)
              1%nat 2%nat None [] [Call.time 10 (Some "valueOf")]
              (Some "valueOf") [] 20 eq_refl)))).
Defined.

(** The counter "n" holds 3; after the reset, [count] logs 1. *)
Lemma countReset_then_count_logs_one_at_busy :
  (0 <= _groupDepth busy /\ labelled (Some "n") <> "__proto__") /\
  written 1%nat
    (snd (final ((Method.countReset (Some "n") ;;
                  Method.count (platform := plain_platform) (Some "n"))
                   (busy, [])))) =
    ["  n: 1" +:+ JS.LF].
Proof.
  assert (Hn : labelled (Some "n") <> "__proto__") by discriminate.
  split; [split; [simpl; lia | exact Hn] |].
  exact (f_equal (fun r => written 1%nat (snd (final r)))
           (countReset_then_count_logs_one (platform := plain_platform)
              busy [] (Some "n") ltac:(simpl; lia) Hn)).
Defined.
